(** * The waybar weather widget (executable_weather.py), embedded in Rocq

    The script is a linear pipeline: locate the caller, fetch a forecast,
    extract the current conditions, format four tooltip sections and print
    one JSON object.  Python values are embedded as the inductive [pyval],
    Python exceptions as the error side of [result], and the two functions
    that print and exit ([fail], [main]) in a writer over standard output. *)

From Stdlib Require Import List String Ascii ZArith QArith Bool Lia.
From Stdlib Require Import DecimalString Sorted.
Import ListNotations.

Set Warnings "-register-all".

Local Open Scope string_scope.
Local Open Scope list_scope.
Local Open Scope Z_scope.

(** ** Exceptions and the error monad *)

Inductive exn_kind :=
| TypeError | ValueError | KeyError | IndexError | AttributeError
| OverflowError | ConnectionError | HTTPError | JSONDecodeError.

(** An exception object; [exn_msg] is what [str(e)] yields. *)
Record exn := Exn { exn_kind_of : exn_kind; exn_msg : string }.

Inductive result (A : Type) :=
| Ok (a : A)
| Raise (e : exn).
Arguments Ok {A} a.
Arguments Raise {A} e.

Definition bind {A B} (r : result A) (k : A -> result B) : result B :=
  match r with
  | Ok a => k a
  | Raise e => Raise e
  end.

Notation "x <- c ;; k" := (bind c (fun x => k))
  (at level 61, c at next level, right associativity).
Notation "' p <- c ;; k" := (bind c (fun x => match x with p => k end))
  (at level 61, p pattern, c at next level, right associativity).

Definition raise {A} (k : exn_kind) (msg : string) : result A :=
  Raise (Exn k msg).

Definition is_ok {A} (r : result A) : bool :=
  match r with Ok _ => true | Raise _ => false end.

(** ** Text *)

(** A Python [str] is kept as its UTF-8 bytes; [len] and iteration count
    code points, that is, the bytes that are not continuation bytes. *)

(** An f-string: the concatenation of its literal and formatted parts. *)
Definition fstr (parts : list string) : string := String.concat "" parts.

Definition is_continuation (c : ascii) : bool :=
  let n := N_of_ascii c in ((128 <=? n) && (n <? 192))%N.

Fixpoint str_len (s : string) : nat :=
  match s with
  | EmptyString => O
  | String c rest => if is_continuation c then str_len rest else S (str_len rest)
  end.

Fixpoint str_repeat (s : string) (n : nat) : string :=
  match n with
  | O => EmptyString
  | S n' => String.append s (str_repeat s n')
  end.

(** The format specs [">w"] and ["<w"] applied to an already rendered text. *)
Definition align_right (w : nat) (s : string) : string :=
  String.append (str_repeat " " (w - str_len s)) s.

Definition align_left (w : nat) (s : string) : string :=
  String.append s (str_repeat " " (w - str_len s)).

(** The leading continuation bytes of [s], then its code points. *)
Fixpoint utf8_split (s : string) : string * list string :=
  match s with
  | EmptyString => (EmptyString, [])
  | String c rest =>
      let '(k, cs) := utf8_split rest in
      if is_continuation c then (String c k, cs)
      else (EmptyString, String c k :: cs)
  end.

(** Iterating over a [str]: one string per code point. *)
Definition str_chars (s : string) : list string :=
  let '(k, cs) := utf8_split s in
  match k with
  | EmptyString => cs
  | _ => k :: cs
  end.

(** The string of the bytes [bytes]. *)
Definition utf8 (bytes : list nat) : string :=
  string_of_list_ascii (map ascii_of_nat bytes).

(** The white space of [str.strip()] and [str.isspace()], each code point
    as its UTF-8 bytes: U+0009 to U+000D, U+001C to U+0020, U+0085, U+00A0,
    U+1680, U+2000 to U+200A, U+2028, U+2029, U+202F, U+205F and U+3000. *)
Definition WHITESPACE : list string :=
  map utf8
      [ [9]; [10]; [11]; [12]; [13]; [28]; [29]; [30]; [31]; [32];
        [194; 133]; [194; 160]; [225; 154; 128];
        [226; 128; 128]; [226; 128; 129]; [226; 128; 130]; [226; 128; 131];
        [226; 128; 132]; [226; 128; 133]; [226; 128; 134]; [226; 128; 135];
        [226; 128; 136]; [226; 128; 137]; [226; 128; 138];
        [226; 128; 168]; [226; 128; 169]; [226; 128; 175];
        [226; 129; 159]; [227; 128; 128] ]%nat.

(** [ch.isspace()] for a code point [ch]. *)
Definition is_space (ch : string) : bool :=
  existsb (String.eqb ch) WHITESPACE.

Fixpoint lstrip (chars : list string) : list string :=
  match chars with
  | [] => []
  | ch :: rest => if is_space ch then lstrip rest else chars
  end.

Definition rstrip (chars : list string) : list string :=
  rev (lstrip (rev chars)).

(** [str.strip()]: the white space is dropped at both ends, code point by
    code point. *)
Definition str_strip (s : string) : string :=
  String.concat "" (rstrip (lstrip (str_chars s))).

(** [re.sub(r"<.*?>", "", s)], by one pass from the right.  The first
    component is the substituted text of [s]; the second is the substituted
    text of what follows the first [">"] of [s] when no newline comes before
    it (what remains when a tag is open at the start of [s]), and [None]
    when the lazy [.*?] cannot reach a [">"]. *)
Fixpoint strip_tags_scan (s : string) : string * option string :=
  match s with
  | EmptyString => (EmptyString, None)
  | String c rest =>
      let '(out, closed) := strip_tags_scan rest in
      let out' :=
        if Ascii.eqb c "<" then
          match closed with
          | Some o => o
          | None => String c out
          end
        else String c out in
      let closed' :=
        if Ascii.eqb c ">" then Some out
        else if Ascii.eqb c "010" then None
        else closed in
      (out', closed')
  end.

Definition strip_tags (s : string) : string := fst (strip_tags_scan s).

Definition str_of_Z (z : Z) : string := NilZero.string_of_int (Z.to_int z).

Definition str_of_nat (n : nat) : string := str_of_Z (Z.of_nat n).

(** A field of [strftime] padded with zeros to two digits. *)
Definition two_digits (z : Z) : string :=
  if z <? 10 then String.append "0" (str_of_Z z) else str_of_Z z.

(** ** Dates and times *)

Record date := Date { year : Z; month : Z; day : Z }.

(** A [datetime]; [utcoffset] is [None] for a naive one and the offset in
    microseconds for an aware one. *)
Record datetime := Datetime {
  dt_date : date;
  hour : Z;
  minute : Z;
  second : Z;
  microsecond : Z;
  utcoffset : option Z
}.

Definition date_eqb (a b : date) : bool :=
  (year a =? year b) && (month a =? month b) && (day a =? day b).

Definition is_leap (y : Z) : bool :=
  (y mod 4 =? 0) && (negb (y mod 100 =? 0) || (y mod 400 =? 0)).

Definition days_in_month (y m : Z) : Z :=
  if m =? 2 then (if is_leap y then 29 else 28)
  else if (m =? 4) || (m =? 6) || (m =? 9) || (m =? 11) then 30
  else 31.

Definition days_before_year (y : Z) : Z :=
  let y' := y - 1 in
  y' * 365 + y' / 4 - y' / 100 + y' / 400.

Fixpoint days_before_month_from (y : Z) (m : nat) : Z :=
  match m with
  | O => 0
  | S m' => days_before_month_from y m' + days_in_month y (Z.of_nat m)
  end.

Definition days_before_month (y m : Z) : Z :=
  days_before_month_from y (Z.to_nat (m - 1)).

(** [date.toordinal()]: 0001-01-01 is day 1. *)
Definition toordinal (d : date) : Z :=
  days_before_year (year d) + days_before_month (year d) (month d) + day d.

(** [date.weekday()]: Monday is 0. *)
Definition weekday (d : date) : Z := (toordinal d + 6) mod 7.

(** [calendar.day_name[i][:3]]. *)
Definition day_abbr (i : Z) : string :=
  nth (Z.to_nat i) ["Mon"; "Tue"; "Wed"; "Thu"; "Fri"; "Sat"; "Sun"] "".

(** Where a datetime sits on the time line, in microseconds of wall time. *)
Definition wall_micros (dt : datetime) : Z :=
  (((toordinal (dt_date dt) * 24 + hour dt) * 60 + minute dt) * 60
   + second dt) * 1000000 + microsecond dt.

(** [a < b] on datetimes that can be compared: two naive ones by wall time,
    two aware ones by instant. *)
Definition dt_ltb (a b : datetime) : bool :=
  match utcoffset a, utcoffset b with
  | Some oa, Some ob => wall_micros a - oa <? wall_micros b - ob
  | _, _ => wall_micros a <? wall_micros b
  end.

Definition comparable (a b : datetime) : bool :=
  match utcoffset a, utcoffset b with
  | None, None => true
  | Some _, Some _ => true
  | _, _ => false
  end.

Definition dt_lt (a b : datetime) : result bool :=
  if comparable a b then Ok (dt_ltb a b)
  else raise TypeError "can't compare offset-naive and offset-aware datetimes".

Definition dt_ge (a b : datetime) : result bool :=
  if comparable a b then Ok (negb (dt_ltb a b))
  else raise TypeError "can't compare offset-naive and offset-aware datetimes".

(** [dt.strftime("%H:%M")] and [dt.strftime("%I:%M %p")]. *)
Definition strftime_HM (dt : datetime) : string :=
  fstr [two_digits (hour dt); ":"; two_digits (minute dt)].

Definition strftime_IMp (dt : datetime) : string :=
  let h12 := if hour dt mod 12 =? 0 then 12 else hour dt mod 12 in
  fstr [two_digits h12; ":"; two_digits (minute dt); " ";
        if hour dt <? 12 then "AM" else "PM"].

(** [d + timedelta(days=1)]; [date.max] is 9999-12-31. *)
Definition date_next (d : date) : result date :=
  if day d <? days_in_month (year d) (month d)
  then Ok (Date (year d) (month d) (day d + 1))
  else if month d <? 12 then Ok (Date (year d) (month d + 1) 1)
  else if year d <? 9999 then Ok (Date (year d + 1) 1 1)
  else raise OverflowError "date value out of range".

(** ** Python values *)

(** A decoded JSON document.  A float is the rational it denotes (JSON has
    no literal for NaN or an infinity, and Python compares an int with a
    float by value); a dict keeps its insertion order. *)
Inductive pyval :=
| PNone
| PBool (b : bool)
| PInt (z : Z)
| PFloat (q : Q)
| PStr (s : string)
| PList (l : list pyval)
| PDict (d : list (string * pyval)).

(** The numeric value of an int, a bool (an int subclass) or a float. *)
Definition num_value (v : pyval) : option Q :=
  match v with
  | PBool b => Some (inject_Z (if b then 1 else 0))
  | PInt z => Some (inject_Z z)
  | PFloat q => Some q
  | _ => None
  end.

Definition Qlt_bool (x y : Q) : bool := negb (Qle_bool y x).

(** [a <= b] and [a > b].  Ordering is modelled on numbers; every value the
    script orders has first been ordered against an int, which raises
    TypeError for anything that is not a number. *)
Definition py_le (a b : pyval) : result bool :=
  match num_value a, num_value b with
  | Some x, Some y => Ok (Qle_bool x y)
  | _, _ => raise TypeError "'<=' not supported between instances"
  end.

Definition py_gt (a b : pyval) : result bool :=
  match num_value a, num_value b with
  | Some x, Some y => Ok (Qlt_bool y x)
  | _, _ => raise TypeError "'>' not supported between instances"
  end.

(** ** Operations on Python values *)

Fixpoint lookup (k : string) (d : list (string * pyval)) : option pyval :=
  match d with
  | [] => None
  | (k', v) :: rest => if String.eqb k k' then Some v else lookup k rest
  end.

(** [v[k]] with a [str] key. *)
Definition py_getitem (v : pyval) (k : string) : result pyval :=
  match v with
  | PDict d =>
      match lookup k d with
      | Some x => Ok x
      | None => raise KeyError (fstr ["'"; k; "'"])
      end
  | PList _ => raise TypeError "list indices must be integers or slices, not str"
  | PStr _ => raise TypeError "string indices must be integers, not 'str'"
  | _ => raise TypeError "object is not subscriptable"
  end.

(** [v.get(k, default)]; only a dict has the method. *)
Definition py_get (v : pyval) (k : string) (default : pyval) : result pyval :=
  match v with
  | PDict d =>
      match lookup k d with
      | Some x => Ok x
      | None => Ok default
      end
  | _ => raise AttributeError "object has no attribute 'get'"
  end.

(** [len(v)]. *)
Definition py_len (v : pyval) : result nat :=
  match v with
  | PList l => Ok (List.length l)
  | PStr s => Ok (str_len s)
  | PDict d => Ok (List.length d)
  | _ => raise TypeError "object has no len()"
  end.

(** The items [iter(v)] yields: a dict yields its keys, a str its code
    points. *)
Definition py_iter (v : pyval) : result (list pyval) :=
  match v with
  | PList l => Ok l
  | PStr s => Ok (map PStr (str_chars s))
  | PDict d => Ok (map (fun kv => PStr (fst kv)) d)
  | _ => raise TypeError "object is not iterable"
  end.

(** [l[i]] on a sequence of [n] items, a negative [i] counting from the
    end. *)
Definition seq_index {A} (l : list A) (i : Z) : result A :=
  let n := Z.of_nat (List.length l) in
  let j := if i <? 0 then i + n else i in
  if (0 <=? j) && (j <? n) then
    match nth_error l (Z.to_nat j) with
    | Some x => Ok x
    | None => raise IndexError "index out of range"
    end
  else raise IndexError "index out of range".

(** [v[i]] with an [int] index; the keys of a decoded JSON object are strs,
    so an int is never one of them. *)
Definition py_index (v : pyval) (i : Z) : result pyval :=
  match v with
  | PList l => seq_index l i
  | PStr s => seq_index (map PStr (str_chars s)) i
  | PDict _ => raise KeyError (str_of_Z i)
  | _ => raise TypeError "object is not subscriptable"
  end.

(** [[x] * n]. *)
Definition py_list_repeat (x : pyval) (n : nat) : pyval := PList (repeat x n).

(** [zip(a, b, c)]: every argument is turned into an iterator first, then
    the shortest one ends the zip. *)
Fixpoint zip3 {A B C} (a : list A) (b : list B) (c : list C)
  : list (A * B * C) :=
  match a, b, c with
  | x :: a', y :: b', z :: c' => (x, y, z) :: zip3 a' b' c'
  | _, _, _ => []
  end.

Definition py_zip3 (a b c : pyval) : result (list (pyval * pyval * pyval)) :=
  xs <- py_iter a ;;
  ys <- py_iter b ;;
  zs <- py_iter c ;;
  Ok (zip3 xs ys zs).

(** [enumerate(l)]. *)
Fixpoint enumerate_from {A} (i : Z) (l : list A) : list (Z * A) :=
  match l with
  | [] => []
  | x :: rest => (i, x) :: enumerate_from (i + 1) rest
  end.

Definition enumerate {A} (l : list A) : list (Z * A) := enumerate_from 0 l.

(** [range(lo, hi)]. *)
Definition py_range (lo hi : Z) : list Z :=
  map (fun k => lo + Z.of_nat k) (seq 0 (Z.to_nat (hi - lo))).

(** Running a fallible function over a list, left to right; the first
    exception ends it. *)
Fixpoint mapM {A B} (f : A -> result B) (l : list A) : result (list B) :=
  match l with
  | [] => Ok []
  | x :: rest =>
      y <- f x ;;
      ys <- mapM f rest ;;
      Ok (y :: ys)
  end.

(** [max(l)]: the first of the greatest items. *)
Fixpoint py_max_from (best : pyval) (l : list pyval) : result pyval :=
  match l with
  | [] => Ok best
  | x :: rest =>
      b <- py_gt x best ;;
      py_max_from (if b then x else best) rest
  end.

Definition py_max (l : list pyval) : result pyval :=
  match l with
  | [] => raise ValueError "max() arg is an empty sequence"
  | x :: rest => py_max_from x rest
  end.

(** The dict key an object hashes and compares equal to, among int keys:
    [1], [True] and [1.0] are the same key; a list or a dict is not
    hashable. *)
Definition int_key (v : pyval) : result (option Z) :=
  match v with
  | PInt z => Ok (Some z)
  | PBool b => Ok (Some (if b then 1 else 0))
  | PFloat q =>
      if Qnum q mod Zpos (Qden q) =? 0
      then Ok (Some (Qnum q / Zpos (Qden q)))
      else Ok None
  | PNone | PStr _ => Ok None
  | PList _ | PDict _ => raise TypeError "unhashable type"
  end.

(** ** The interpreter's library *)

(** What the script takes from CPython and is not part of it: the ISO 8601
    parser, and binary64 rounding and printing.  [float_round] is rounding
    to the nearest float, [float_repr] is [repr], [float_fixed1] is
    [format(x, ".1f")], and [container_repr] is [repr] of a list or dict. *)
Class Runtime := {
  fromisoformat : string -> result datetime;
  float_round : Q -> Q;
  float_repr : Q -> string;
  float_fixed1 : Q -> string;
  container_repr : pyval -> string
}.

Section Values.
Context {R : Runtime}.

(** [datetime.fromisoformat(v)]. *)
Definition py_fromisoformat (v : pyval) : result datetime :=
  match v with
  | PStr s => fromisoformat s
  | _ => raise TypeError "fromisoformat: argument must be str"
  end.

(** [float(z)]: an int that rounds beyond the largest float overflows. *)
Definition int_to_float (z : Z) : result Q :=
  if Z.abs z <? 2 ^ 1024 - 2 ^ 970 then Ok (float_round (inject_Z z))
  else raise OverflowError "int too large to convert to float".

Definition int_value (v : pyval) : option Z :=
  match v with
  | PInt z => Some z
  | PBool b => Some (if b then 1 else 0)
  | _ => None
  end.

Definition to_float (v : pyval) : result Q :=
  match v with
  | PFloat q => Ok q
  | PInt z => int_to_float z
  | PBool b => int_to_float (if b then 1 else 0)
  | _ => raise TypeError "unsupported operand type(s) for +"
  end.

(** [a + b] on numbers: exact on ints, rounded once a float takes part. *)
Definition py_add (a b : pyval) : result pyval :=
  match int_value a, int_value b with
  | Some x, Some y => Ok (PInt (x + y))
  | _, _ =>
      x <- to_float a ;;
      y <- to_float b ;;
      Ok (PFloat (float_round (x + y)))
  end.

(** [str(v)], which is also [format(v, "")]. *)
Definition py_str (v : pyval) : string :=
  match v with
  | PNone => "None"
  | PBool b => if b then "True" else "False"
  | PInt z => str_of_Z z
  | PFloat q => float_repr q
  | PStr s => s
  | PList _ | PDict _ => container_repr v
  end.

(** [format(v, ">2")]: a bool is formatted as the int it is; None, a list
    and a dict accept no format spec. *)
Definition format_right2 (v : pyval) : result string :=
  match v with
  | PInt z => Ok (align_right 2 (str_of_Z z))
  | PBool b => Ok (align_right 2 (if b then "1" else "0"))
  | PFloat q => Ok (align_right 2 (float_repr q))
  | PStr s => Ok (align_right 2 s)
  | _ => raise TypeError "unsupported format string passed to __format__"
  end.

(** [format(v, ".1f")]. *)
Definition format_fixed1 (v : pyval) : result string :=
  match v with
  | PFloat q => Ok (float_fixed1 q)
  | PInt z => q <- int_to_float z ;; Ok (float_fixed1 q)
  | PBool b => q <- int_to_float (if b then 1 else 0) ;; Ok (float_fixed1 q)
  | PStr _ => raise ValueError "Unknown format code 'f' for object of type 'str'"
  | _ => raise TypeError "unsupported format string passed to __format__"
  end.

End Values.

(** ** Tables *)

Definition DAYS_FORECAST : Z := 5.

Definition FG_HEADER : string := "#f4b8e4".
Definition FG_TEXT : string := "#ffffff".

Definition TEMP_COLORS : list (Z * string) :=
  [ (15, "#8caaee");
    (18, "#85c1dc");
    (21, "#99d1db");
    (24, "#81c8be");
    (27, "#a6d189");
    (30, "#e5c890");
    (32, "#ef9f76");
    (33, "#ea999c");
    (100, "#e78284") ].

Definition WEATHER_MAP : list (Z * (string * string)) :=
  [
    (0, ("☀️", "Clear sky"));
    (1, ("🌤️", "Mainly clear"));
    (2, ("⛅", "Partly cloudy"));
    (3, ("☁️", "Overcast"));
    (45, ("🌫️", "Fog"));
    (48, ("🌫️", "Depositing rime fog"));
    (51, ("🌦️", "Light drizzle"));
    (53, ("🌦️", "Moderate drizzle"));
    (55, ("🌦️", "Dense drizzle"));
    (61, ("🌧️", "Slight rain"));
    (63, ("🌧️", "Moderate rain"));
    (65, ("🌧️", "Heavy rain"));
    (66, ("🌧️", "Light freezing rain"));
    (67, ("🌧️", "Heavy freezing rain"));
    (71, ("❄️", "Slight snow"));
    (73, ("❄️", "Moderate snow"));
    (75, ("❄️", "Heavy snow"));
    (80, ("🌦️", "Slight rain showers"));
    (81, ("🌧️", "Moderate rain showers"));
    (82, ("🌧️", "Violent rain showers"));
    (95, ("⛈️", "Thunderstorm"));
    (96, ("⛈️", "Thunderstorm with hail (slight)"));
    (99, ("⛈️", "Thunderstorm with hail (severe)")) ].

Definition SHORT_DESC_MAP : list (string * string) :=
  [
    ("Slight rain showers", "Slight rain");
    ("Moderate rain showers", "Moderate rain");
    ("Violent rain showers", "Heavy rain");
    ("Thunderstorm with hail (slight)", "Hail Storm");
    ("Thunderstorm with hail (severe)", "Severe Storm");
    ("Light drizzle", "Drizzle");
    ("Moderate drizzle", "Mod drizzle");
    ("Dense drizzle", "Dense drizzle");
    ("Slight rain", "Slight rain");
    ("Moderate rain", "Mod rain");
    ("Heavy rain", "Heavy rain");
    ("Light freezing rain", "Freezing rain");
    ("Heavy freezing rain", "Heavy freeze");
    ("Slight snow", "Snow");
    ("Moderate snow", "Mod snow");
    ("Heavy snow", "Heavy snow");
    ("Clear sky", "Clear");
    ("Mainly clear", "Mainly clear");
    ("Partly cloudy", "Part cloudy");
    ("Overcast", "Overcast");
    ("Fog", "Fog");
    ("Depositing rime fog", "Rime fog") ].

(** The [for] loop of [temp_to_color]: [Some color] when it returns from
    inside the loop, [None] when it falls through. *)
Fixpoint temp_to_color_scan (temp : pyval) (table : list (Z * string))
  : result (option string) :=
  match table with
  | [] => Ok None
  | (t_max, color) :: rest =>
      b <- py_le temp (PInt t_max) ;;
      if b then Ok (Some color) else temp_to_color_scan temp rest
  end.

Definition temp_to_color (temp : pyval) : result string :=
  r <- temp_to_color_scan temp TEMP_COLORS ;;
  match r with
  | Some color => Ok color
  | None => Ok (snd (last TEMP_COLORS (0, "")))
  end.

Fixpoint assoc_Z {V} (k : Z) (d : list (Z * V)) : option V :=
  match d with
  | [] => None
  | (k', v) :: rest => if k =? k' then Some v else assoc_Z k rest
  end.

Fixpoint assoc_str {V} (k : string) (d : list (string * V)) : option V :=
  match d with
  | [] => None
  | (k', v) :: rest => if String.eqb k k' then Some v else assoc_str k rest
  end.

Definition get_weather_info (code : pyval) : result (string * string) :=
  key <- int_key code ;;
  match key with
  | Some z =>
      match assoc_Z z WEATHER_MAP with
      | Some info => Ok info
      | None => Ok ("❓", "Unknown")
      end
  | None => Ok ("❓", "Unknown")
  end.

Definition get_short_desc (desc : string) : string :=
  match assoc_str desc SHORT_DESC_MAP with
  | Some short => short
  | None => desc
  end.

Definition max_line_length (lines : list string) : nat :=
  let clean := map strip_tags lines in
  fold_right Nat.max O (map str_len clean).

(** A [for] loop whose body updates the loop's variables [st] and may
    raise. *)
Fixpoint for_each {A S} (body : S -> A -> result S) (items : list A) (st : S)
  : result S :=
  match items with
  | [] => Ok st
  | x :: rest =>
      st' <- body st x ;;
      for_each body rest st'
  end.

Definition newline : string := String "010" EmptyString.

(** ** Extraction and the section builders *)

Record weather := Weather {
  w_temp : pyval;
  w_code : pyval;
  w_feels_like : pyval;
  w_humidity : pyval;
  w_windspeed : pyval
}.

Record rain_state := RainState {
  rain_probs : list pyval;
  rain_start_time : option datetime;
  precip_total : pyval
}.

Definition TIME_LABELS : list (Z * string) :=
  [ (6, "Morning"); (12, "Midday"); (15, "Afternoon"); (18, "Evening") ].

Section Script.
Context {R : Runtime}.

Fixpoint find_current_hour_scan (now : datetime) (items : list (Z * pyval))
  : result (option Z) :=
  match items with
  | [] => Ok None
  | (i, t) :: rest =>
      dt <- py_fromisoformat t ;;
      if (hour dt =? hour now) && date_eqb (dt_date dt) (dt_date now)
      then Ok (Some i)
      else find_current_hour_scan now rest
  end.

Definition find_current_hour_index (times : pyval) (now : datetime)
  : result Z :=
  items <- py_iter times ;;
  r <- find_current_hour_scan now (enumerate items) ;;
  match r with
  | Some i => Ok i
  | None => Ok 0
  end.

Definition extract_current_weather (data : pyval) (now : datetime)
  : result weather :=
  current <- py_getitem data "current_weather" ;;
  hourly <- py_getitem data "hourly" ;;
  times <- py_getitem hourly "time" ;;
  idx <- find_current_hour_index times now ;;
  temp <- py_getitem current "temperature" ;;
  code <- py_getitem current "weathercode" ;;
  temp' <- py_getitem current "temperature" ;;
  n1 <- py_len times ;;
  feels_arr <- py_get hourly "apparent_temperature" (py_list_repeat temp' n1) ;;
  feels_like <- py_index feels_arr idx ;;
  n2 <- py_len times ;;
  humidity_arr <- py_get hourly "relativehumidity_2m"
                    (py_list_repeat (PInt 0) n2) ;;
  humidity <- py_index humidity_arr idx ;;
  n3 <- py_len times ;;
  wind_arr <- py_get hourly "windspeed_10m" (py_list_repeat (PInt 0) n3) ;;
  windspeed <- py_index wind_arr idx ;;
  Ok (Weather temp code feels_like humidity windspeed).

Definition build_current_section (w : weather) (location_name : pyval)
  : result (list string) :=
  '(icon, desc) <- get_weather_info (w_code w) ;;
  let temp := w_temp w in
  let feels_like := w_feels_like w in
  c_temp <- temp_to_color temp ;;
  c_feels <- temp_to_color feels_like ;;
  Ok [ fstr ["🌡️ <span foreground='"; c_temp; "'>"; py_str temp;
             "°C</span> (Feels like <span foreground='"; c_feels; "'>";
             py_str feels_like; "°C</span>)"];
       fstr [icon; " "; desc];
       fstr ["💧 Humidity: "; py_str (w_humidity w); "%"];
       fstr ["🌬️ Wind Speed: "; py_str (w_windspeed w); " km/h"] ].

(** *** Today's rain *)

(** The condition [dt.date() == now.date() and dt >= now]; the comparison
    runs only when the dates agree. *)
Definition future_today (now dt : datetime) : result bool :=
  if date_eqb (dt_date dt) (dt_date now) then dt_ge dt now else Ok false.

Definition rain_body (now : datetime) (st : rain_state)
           (entry : pyval * pyval * pyval) : result rain_state :=
  let '(t, prob, precip) := entry in
  dt <- py_fromisoformat t ;;
  keep <- future_today now dt ;;
  if keep then
    let probs := rain_probs st ++ [prob] in
    total <- py_add (precip_total st) precip ;;
    positive <- py_gt prob (PInt 0) ;;
    match positive, rain_start_time st with
    | true, None => Ok (RainState probs (Some dt) total)
    | _, start => Ok (RainState probs start total)
    end
  else Ok st.

Definition rain_start_line (start : option datetime) : string :=
  match start with
  | Some dt => fstr ["⏱️ Expected rain start: "; strftime_IMp dt]
  | None => "⏱️ Expected rain start: None predicted"
  end.

(** What follows the loop: the block is built when [rain_probs] is not
    empty and its maximum is positive. *)
Definition rain_block (st : rain_state) : result (list string) :=
  match rain_probs st with
  | [] => Ok []
  | _ :: _ =>
      m <- py_max (rain_probs st) ;;
      positive <- py_gt m (PInt 0) ;;
      if positive then
        total <- format_fixed1 (precip_total st) ;;
        Ok [ fstr ["🌧️ Chance of rain today: <span foreground='"; FG_TEXT;
                   "'>"; py_str m; "%</span>"];
             rain_start_line (rain_start_time st);
             fstr ["☔ Total predicted rain: "; total; " mm"];
             "" ]
      else Ok []
  end.

(** The triples the rain loop runs over. *)
Definition rain_entries (hourly : pyval)
  : result (list (pyval * pyval * pyval)) :=
  times <- py_getitem hourly "time" ;;
  n1 <- py_len times ;;
  rain_arr <- py_get hourly "precipitation_probability"
                (py_list_repeat (PInt 0) n1) ;;
  n2 <- py_len times ;;
  precip_arr <- py_get hourly "precipitation" (py_list_repeat (PInt 0) n2) ;;
  py_zip3 times rain_arr precip_arr.

Definition build_today_rain_info (hourly : pyval) (now : datetime)
  : result (list string) :=
  entries <- rain_entries hourly ;;
  st <- for_each (rain_body now) entries (RainState [] None (PInt 0)) ;;
  rain_block st.

(** *** Hourly lines *)

(** The three parallel arrays of the hourly and tomorrow builders. *)
Definition forecast_entries (hourly : pyval)
  : result (list (pyval * pyval * pyval)) :=
  times <- py_getitem hourly "time" ;;
  temps <- py_getitem hourly "temperature_2m" ;;
  codes <- py_getitem hourly "weathercode" ;;
  py_zip3 times temps codes.

Definition hourly_line (dt : datetime) (temp code : pyval) : result string :=
  let hour := strftime_HM dt in
  '(icon, desc) <- get_weather_info code ;;
  let short_desc := get_short_desc desc in
  color <- temp_to_color temp ;;
  t <- format_right2 temp ;;
  Ok (fstr [hour; " - <span foreground='"; color; "'>"; t; "°C</span> ";
            icon; " "; short_desc]).

(** The second [continue] of the hourly loop:
    [for_date == now.date() and dt < now]. *)
Definition already_past (now : datetime) (for_date : date) (dt : datetime)
  : result bool :=
  if date_eqb for_date (dt_date now) then dt_lt dt now else Ok false.

Definition hourly_body (now : datetime) (for_date : date)
           (lines : list string) (entry : pyval * pyval * pyval)
  : result (list string) :=
  let '(t, temp, code) := entry in
  dt <- py_fromisoformat t ;;
  if negb (date_eqb (dt_date dt) for_date) then Ok lines
  else
    past <- already_past now for_date dt ;;
    if past then Ok lines
    else
      line <- hourly_line dt temp code ;;
      Ok (lines ++ [line]).

Definition build_hourly_forecast (hourly : pyval) (now : datetime)
           (for_date : date) : result (list string) :=
  entries <- forecast_entries hourly ;;
  lines <- for_each (hourly_body now for_date) entries [] ;;
  match lines with
  | [] => Ok ["Hourly forecast unavailable"]
  | _ :: _ => Ok lines
  end.

(** *** Tomorrow *)

Definition label_width : nat :=
  fold_right Nat.max O (map (fun kv => str_len (snd kv)) TIME_LABELS).

Definition tomorrow_line (label : string) (temp code : pyval)
  : result string :=
  '(icon, desc) <- get_weather_info code ;;
  let short_desc := get_short_desc desc in
  color <- temp_to_color temp ;;
  t <- format_right2 temp ;;
  Ok (fstr [align_left label_width label; " - <span foreground='"; color;
            "'>"; t; "°C</span> "; icon; " "; short_desc]).

Definition tomorrow_body (tomorrow : date) (lines : list string)
           (entry : pyval * pyval * pyval) : result (list string) :=
  let '(t, temp, code) := entry in
  dt <- py_fromisoformat t ;;
  if negb (date_eqb (dt_date dt) tomorrow) then Ok lines
  else
    match assoc_Z (hour dt) TIME_LABELS with
    | None => Ok lines
    | Some label =>
        line <- tomorrow_line label temp code ;;
        Ok (lines ++ [line])
    end.

Definition build_tomorrow_forecast (hourly : pyval) (tomorrow : date)
  : result (list string) :=
  entries <- forecast_entries hourly ;;
  lines <- for_each (tomorrow_body tomorrow) entries [] ;;
  match lines with
  | [] => Ok ["Tomorrow forecast unavailable"]
  | _ :: _ => Ok lines
  end.

(** *** The coming days *)

Definition daily_line (dates max_temps min_temps codes : pyval) (i : Z)
  : result string :=
  d <- py_index dates i ;;
  dt <- py_fromisoformat d ;;
  let day_name := day_abbr (weekday (dt_date dt)) in
  code <- py_index codes i ;;
  '(icon, desc) <- get_weather_info code ;;
  let short_desc := get_short_desc desc in
  hi <- py_index max_temps i ;;
  c_hi <- temp_to_color hi ;;
  t_hi <- format_right2 hi ;;
  lo <- py_index min_temps i ;;
  c_lo <- temp_to_color lo ;;
  t_lo <- format_right2 lo ;;
  Ok (fstr [align_left 3 day_name; " ";
            "⬆️<span foreground='"; c_hi; "'>"; t_hi; "°C</span> ";
            "⬇️<span foreground='"; c_lo; "'>"; t_lo; "°C</span> ";
            icon; " "; short_desc]).

Definition daily_body (dates max_temps min_temps codes : pyval)
           (lines : list string) (i : Z) : result (list string) :=
  line <- daily_line dates max_temps min_temps codes i ;;
  Ok (lines ++ [line]).

Definition build_daily_forecast (daily : pyval) (days : Z)
  : result (list string) :=
  dates <- py_getitem daily "time" ;;
  max_temps <- py_getitem daily "temperature_2m_max" ;;
  min_temps <- py_getitem daily "temperature_2m_min" ;;
  codes <- py_getitem daily "weathercode" ;;
  n <- py_len dates ;;
  for_each (daily_body dates max_temps min_temps codes)
           (py_range 1 (Z.min (days + 1) (Z.of_nat n))) [].

(** ** Rendering *)

Definition render_section (lines : list string) (heading : string)
           (max_len : nat) : list string :=
  [ fstr ["<span foreground='"; FG_HEADER; "' font='9'>"; heading; "</span>"];
    fstr ["<span foreground='#ffffff'>"; str_repeat "─" max_len; "</span>"] ]
  ++ map (fun line =>
            fstr ["<span foreground='"; FG_TEXT; "' font='9'>"; line;
                  "</span>"]) lines
  ++ [ "" ].

Definition build_tooltip (sections : list (list string * string))
           (max_len : nat) : string :=
  let tooltip_lines :=
    fold_left (fun acc sec => acc ++ render_section (fst sec) (snd sec) max_len)
              sections [] in
  String.concat newline tooltip_lines.

End Script.

(** ** The network, the clock and the process *)

(** An HTTP response as [requests] hands it over; [resp_json] is what
    [r.json()] returns or raises on its body. *)
Record response := Response {
  status_code : Z;
  reason : string;
  resp_url : string;
  text : string;
  resp_json : result pyval
}.

(** [r.raise_for_status()]: an HTTPError for a 4xx or a 5xx status. *)
Definition raise_for_status (r : response) : result unit :=
  if (400 <=? status_code r) && (status_code r <? 500) then
    raise HTTPError (fstr [str_of_Z (status_code r); " Client Error: ";
                           reason r; " for url: "; resp_url r])
  else if (500 <=? status_code r) && (status_code r <? 600) then
    raise HTTPError (fstr [str_of_Z (status_code r); " Server Error: ";
                           reason r; " for url: "; resp_url r])
  else Ok tt.

(** What one run can observe: the answer (or the exception) of
    [requests.get] for each URL, and the wall clock read by
    [datetime.now()]. *)
Record world := World {
  http_get : string -> result response;
  clock : datetime
}.

(** One line of standard output: [print(json.dumps(obj))], with the value of
    [ensure_ascii]. *)
Record json_line := JsonLine { ensure_ascii : bool; printed : pyval }.

(** How a piece of the program ends: normally, with an exception on its way
    up, or with [sys.exit(code)]; SystemExit is not an [Exception], so no
    [except Exception] stops it. *)
Inductive outcome (A : Type) :=
| Done (a : A)
| Uncaught (e : exn)
| Exited (code : Z).
Arguments Done {A} a.
Arguments Uncaught {A} e.
Arguments Exited {A} code.

(** A program: the lines it printed and how it ended. *)
Definition prog (A : Type) : Type := list json_line * outcome A.

Definition ret {A} (a : A) : prog A := ([], Done a).

Definition pbind {A B} (p : prog A) (k : A -> prog B) : prog B :=
  match p with
  | (out, Done a) => let '(out', o) := k a in (out ++ out', o)
  | (out, Uncaught e) => (out, Uncaught e)
  | (out, Exited c) => (out, Exited c)
  end.

Notation "x <~ c ;; k" := (pbind c (fun x => k))
  (at level 61, c at next level, right associativity).

Definition lift {A} (r : result A) : prog A :=
  match r with
  | Ok a => ret a
  | Raise e => ([], Uncaught e)
  end.

Definition print_json (ascii_only : bool) (obj : pyval) : prog unit :=
  ([JsonLine ascii_only obj], Done tt).

Definition sys_exit {A} (code : Z) : prog A := ([], Exited code).

(** The exit status of the process: an uncaught exception ends it with
    status 1. *)
Definition exit_status {A} (o : outcome A) : Z :=
  match o with
  | Done _ => 0
  | Uncaught _ => 1
  | Exited c => c
  end.

(** [fail(msg)]; the script never relies on the default message. *)
Definition fail {A} (msg : string) : prog A :=
  _ <~ print_json true
         (PDict [ ("text", PStr "N/A");
                  ("tooltip", PStr (fstr ["<span foreground='"; FG_HEADER;
                                          "'>"; msg; "</span>"])) ]) ;;
  sys_exit 0.

Definition fallback_location : pyval * pyval * pyval :=
  (PFloat 0, PFloat 0, PStr "Your Location").

(** The [try] block of [get_location_by_ip]. *)
Definition lookup_location (w : world) : result (pyval * pyval * pyval) :=
  r <- http_get w "https://checkip.amazonaws.com" ;;
  let ip := str_strip (text r) in
  r <- http_get w (fstr ["http://ip-api.com/json/"; ip]) ;;
  _ <- raise_for_status r ;;
  data <- resp_json r ;;
  lat <- py_getitem data "lat" ;;
  lon <- py_getitem data "lon" ;;
  city <- py_get data "city" (PStr "Your Location") ;;
  Ok (lat, lon, city).

Definition get_location_by_ip (w : world) : pyval * pyval * pyval :=
  match lookup_location w with
  | Ok location => location
  | Raise _ => fallback_location
  end.

(** The [try] block of [fetch_weather_data]. *)
Definition request_forecast (w : world) (url : string) : result pyval :=
  r <- http_get w url ;;
  _ <- raise_for_status r ;;
  resp_json r.

Definition fetch_weather_data (w : world) (url : string) : prog pyval :=
  match request_forecast w url with
  | Ok data => ret data
  | Raise e => fail (fstr ["Failed to fetch weather: "; exn_msg e])
  end.

Section Main.
Context {R : Runtime}.

Definition build_api_url (lat lon : pyval) : string :=
  fstr [ "https://api.open-meteo.com/v1/forecast?";
         "latitude="; py_str lat; "&longitude="; py_str lon;
         "&current_weather=true";
         "&hourly=temperature_2m,apparent_temperature,weathercode,";
         "relativehumidity_2m,windspeed_10m,precipitation_probability,precipitation";
         "&daily=temperature_2m_max,temperature_2m_min,weathercode,precipitation_sum";
         "&timezone=auto" ].

(** [main] from the line [now = datetime.now()] on: what is computed from
    the location, the payload and the time. *)
Definition render_forecast (location_name data : pyval) (now : datetime)
  : prog unit :=
  tomorrow <~ lift (date_next (dt_date now)) ;;
  weather <~ match extract_current_weather data now with
             | Ok weather => ret weather
             | Raise _ => fail "Failed to parse current weather"
             end ;;
  info <~ lift (get_weather_info (w_code weather)) ;;
  let icon := fst info in
  color <~ lift (temp_to_color (w_temp weather)) ;;
  let text := fstr [" | "; icon; " <span foreground='"; color; "'>";
                    py_str (w_temp weather); "°C</span>"] in
  hourly <~ lift (py_getitem data "hourly") ;;
  daily <~ lift (py_getitem data "daily") ;;
  current_lines <~ lift (build_current_section weather location_name) ;;
  rain_lines <~ lift (build_today_rain_info hourly now) ;;
  hour_lines <~ lift (build_hourly_forecast hourly now (dt_date now)) ;;
  let today_lines := rain_lines ++ hour_lines in
  tomorrow_lines <~ lift (build_tomorrow_forecast hourly tomorrow) ;;
  daily_lines <~ lift (build_daily_forecast daily DAYS_FORECAST) ;;
  let all_lines :=
    current_lines ++ today_lines ++ tomorrow_lines ++ daily_lines in
  let headings :=
    [ fstr ["🌍 Current Weather - "; py_str location_name];
      "☀️ Today Forecast:";
      "⛅ Tomorrow Forecast:";
      fstr ["📅 Upcoming "; str_of_Z DAYS_FORECAST; "-day Forecast:"] ] in
  let max_len := max_line_length (all_lines ++ headings) in
  let sections :=
    [ (current_lines, fstr ["🌍 Current Weather - "; py_str location_name]);
      (today_lines, "☀️ Today Forecast:");
      (tomorrow_lines, "⛅ Tomorrow Forecast:");
      (daily_lines,
       fstr ["📅 Upcoming "; str_of_Z DAYS_FORECAST; "-day Forecast:"]) ] in
  let tooltip := build_tooltip sections max_len in
  print_json false
    (PDict [ ("text", PStr text);
             ("tooltip", PStr tooltip);
             ("markup", PStr "pango") ]).

Definition main (w : world) : prog unit :=
  let '(lat, lon, location_name) := get_location_by_ip w in
  let url := build_api_url lat lon in
  data <~ fetch_weather_data w url ;;
  render_forecast location_name data (clock w).

End Main.

(** ** A runtime for the examples *)

(** The timestamps Open-Meteo sends, [YYYY-MM-DDTHH:MM]; the examples use no
    other form. *)
Definition digit_of (c : ascii) : option Z :=
  let n := N_of_ascii c in
  if ((48 <=? n) && (n <=? 57))%N then Some (Z.of_N n - 48) else None.

Fixpoint digits_value (acc : Z) (s : string) : option Z :=
  match s with
  | EmptyString => Some acc
  | String c rest =>
      match digit_of c with
      | Some d => digits_value (acc * 10 + d) rest
      | None => None
      end
  end.

Definition field_at (s : string) (start len : nat) : option Z :=
  digits_value 0 (substring start len s).

Definition char_at (s : string) (i : nat) (c : ascii) : bool :=
  match String.get i s with
  | Some c' => Ascii.eqb c c'
  | None => false
  end.

Definition iso_minutes (s : string) : result datetime :=
  match field_at s 0 4, field_at s 5 2, field_at s 8 2,
        field_at s 11 2, field_at s 14 2 with
  | Some y, Some m, Some d, Some h, Some mi =>
      if (String.length s =? 16)%nat
         && char_at s 4 "-" && char_at s 7 "-" && char_at s 10 "T"
         && char_at s 13 ":"
         && (1 <=? y) && (1 <=? m) && (m <=? 12)
         && (1 <=? d) && (d <=? days_in_month y m)
         && (h <? 24) && (mi <? 60)
      then Ok (Datetime (Date y m d) h mi 0 0 None)
      else raise ValueError "Invalid isoformat string"
  | _, _, _, _, _ => raise ValueError "Invalid isoformat string"
  end.

(** [q] in tenths, rounded half to even. *)
Definition tenths (q : Q) : Z :=
  let n := Qnum q * 10 in
  let d := Zpos (Qden q) in
  let fl := n / d in
  let r := n mod d in
  if 2 * r <? d then fl
  else if d <? 2 * r then fl + 1
  else if Z.even fl then fl else fl + 1.

Definition decimal1 (q : Q) : string :=
  let t := tenths q in
  fstr [ if t <? 0 then "-" else "";
         str_of_Z (Z.abs t / 10); "."; str_of_Z (Z.abs t mod 10) ].

(** Exact on the floats of the examples, which have one decimal digit and
    sums that need no rounding. *)
Definition example_runtime : Runtime :=
  {| fromisoformat := iso_minutes;
     float_round := fun q => q;
     float_repr := decimal1;
     float_fixed1 := decimal1;
     container_repr := fun _ => "[...]" |}.

(** ** Vocabulary of the properties *)

(** The bounds of the colour scale, in table order. *)
Definition bounds (table : list (Z * string)) : list Z := map fst table.

Definition is_number (v : pyval) : bool :=
  match num_value v with
  | Some _ => true
  | None => false
  end.

(** A precipitation amount as the API sends it, a float, or the [0] of the
    default array. *)
Definition is_amount (v : pyval) : bool :=
  match v with
  | PFloat _ => true
  | PInt 0 => true
  | _ => false
  end.

(** An array that may be absent from the payload. *)
Definition optional_array (ok : pyval -> bool) (field : option pyval) : bool :=
  match field with
  | None => true
  | Some (PList l) => forallb ok l
  | Some _ => false
  end.

Definition required_array (ok : pyval -> bool) (field : option pyval) : bool :=
  match field with
  | Some (PList l) => forallb ok l
  | _ => false
  end.

Section Vocabulary.
Context {R : Runtime}.

(** A timestamp that parses to a naive datetime, as [now] is. *)
Definition naive_timestamp (v : pyval) : bool :=
  match py_fromisoformat v with
  | Ok dt =>
      match utcoffset dt with
      | None => true
      | Some _ => false
      end
  | Raise _ => false
  end.

(** A value [datetime.fromisoformat] accepts. *)
Definition parses (v : pyval) : bool := is_ok (py_fromisoformat v).

(** An hourly payload on which the rain block cannot raise. *)
Definition rain_payload_ok (hourly : pyval) : bool :=
  match hourly with
  | PDict d =>
      required_array naive_timestamp (lookup "time" d)
      && optional_array is_number (lookup "precipitation_probability" d)
      && optional_array is_amount (lookup "precipitation" d)
  | _ => false
  end.

(** An hourly payload on which the hourly and tomorrow builders cannot
    raise. *)
Definition forecast_payload_ok (hourly : pyval) : bool :=
  match hourly with
  | PDict d =>
      required_array naive_timestamp (lookup "time" d)
      && required_array is_number (lookup "temperature_2m" d)
      && required_array is_number (lookup "weathercode" d)
  | _ => false
  end.

(** A value that compares greater than the int 0. *)
Definition positive (v : pyval) : Prop := py_gt v (PInt 0) = Ok true.

(** An hourly entry of today, not before [now], with a positive
    probability of rain; [dt] is its timestamp. *)
Definition rainy_at (now : datetime) (entry : pyval * pyval * pyval)
           (dt : datetime) : Prop :=
  let '(t, prob, _) := entry in
  py_fromisoformat t = Ok dt /\
  date_eqb (dt_date dt) (dt_date now) = true /\
  dt_ge dt now = Ok true /\
  positive prob.

Definition rainy (now : datetime) (entry : pyval * pyval * pyval) : Prop :=
  exists dt, rainy_at now entry dt.

(** What the rain loop maintains, [done] being the entries gone through. *)
Definition rain_inv (now : datetime) (done : list (pyval * pyval * pyval))
           (st : rain_state) : Prop :=
  Forall (fun p => num_value p <> None) (rain_probs st) /\
  (Exists positive (rain_probs st) <-> Exists (rainy now) done) /\
  match rain_start_time st with
  | None => Forall (fun e => ~ rainy now e) done
  | Some dt =>
      exists pre entry post,
        done = pre ++ entry :: post /\
        Forall (fun e => ~ rainy now e) pre /\
        rainy_at now entry dt
  end.

(** The entries the rain loop goes through without raising, and the state
    it keeps then. *)
Definition rain_entry_ok (entry : pyval * pyval * pyval) : Prop :=
  naive_timestamp (fst (fst entry)) = true /\
  is_number (snd (fst entry)) = true /\
  is_amount (snd entry) = true.

Definition rain_state_ok (st : rain_state) : Prop :=
  Forall (fun p => num_value p <> None) (rain_probs st) /\
  is_amount (precip_total st) = true.





(** The entries the hourly and tomorrow loops go through without raising. *)
Definition forecast_entry_ok (entry : pyval * pyval * pyval) : Prop :=
  naive_timestamp (fst (fst entry)) = true /\
  is_number (snd (fst entry)) = true /\
  is_number (snd entry) = true.

(** A daily payload made of its four arrays. *)
Definition daily_payload (dates max_temps min_temps codes : list pyval)
  : pyval :=
  PDict [ ("time", PList dates);
          ("temperature_2m_max", PList max_temps);
          ("temperature_2m_min", PList min_temps);
          ("weathercode", PList codes) ].

(** An hourly array that is absent, or a list as long as the timestamps. *)
Definition aligned (n : nat) (field : option pyval) : bool :=
  match field with
  | None => true
  | Some (PList l) => (List.length l =? n)%nat
  | Some _ => false
  end.

(** The timestamp [t] is the one [find_current_hour_index] looks for. *)
Definition current_hour (now : datetime) (t : pyval) : Prop :=
  exists dt,
    py_fromisoformat t = Ok dt /\
    hour dt = hour now /\
    date_eqb (dt_date dt) (dt_date now) = true.

End Vocabulary.

(** The object [fail] prints when the fetch raised an exception whose text
    is [why]. *)
Definition fetch_fallback (why : string) : pyval :=
  PDict [ ("text", PStr "N/A");
          ("tooltip",
           PStr (String.append
                   "<span foreground='#f4b8e4'>Failed to fetch weather: "
                   (String.append why "</span>"))) ].

(** The keys of a dict, in order. *)
Definition py_keys (v : pyval) : list string :=
  match v with
  | PDict d => map fst d
  | _ => []
  end.

(** ** A sample run *)

Definition sample_now : datetime :=
  Datetime (Date 2024 5 1) 10 30 0 0 None.

Definition sample_times : list pyval :=
  [ PStr "2024-05-01T09:00"; PStr "2024-05-01T10:00";
    PStr "2024-05-01T11:00"; PStr "2024-05-01T12:00";
    PStr "2024-05-02T06:00"; PStr "2024-05-02T12:00" ].

Definition sample_hourly : pyval :=
  PDict [ ("time", PList sample_times);
          ("temperature_2m",
           PList [PFloat (41 # 2); PInt 9; PFloat 33; PFloat (35 # 2);
                  PFloat 15; PInt 20]);
          ("weathercode",
           PList [PInt 3; PInt 61; PInt 80; PInt 2; PInt 0; PInt 1]);
          ("precipitation_probability",
           PList [PInt 70; PInt 0; PInt 0; PInt 30; PInt 5; PInt 5]);
          ("precipitation",
           PList [PFloat (1 # 2); PFloat 0; PFloat 0; PFloat (5 # 4);
                  PFloat 1; PFloat 1]) ].

Definition sample_daily : pyval :=
  daily_payload
    [PStr "2024-05-01T00:00"; PStr "2024-05-02T00:00"; PStr "2024-05-03T00:00"]
    [PFloat 21; PFloat (45 # 2); PFloat (61 # 2)]
    [PFloat 9; PInt 11; PFloat (25 # 2)]
    [PInt 3; PInt 2; PInt 95].

(** A daily payload that holds today only. *)
Definition today_only_daily : pyval :=
  daily_payload [PStr "2024-05-01T00:00"] [PFloat 21] [PFloat 9] [PInt 3].

Definition sample_data : pyval :=
  PDict [ ("current_weather",
           PDict [("temperature", PInt 20); ("weathercode", PInt 3)]);
          ("hourly", sample_hourly);
          ("daily", sample_daily) ].

Definition sample_geo : pyval :=
  PDict [ ("lat", PFloat (97 # 2)); ("lon", PFloat (5 # 2));
          ("city", PStr "Paris") ].

(** A network where every service answers; [ip_text] is the body of the
    public-IP service. *)
Definition answering (ip_text : string) (url : string) : result response :=
  if String.eqb url "https://checkip.amazonaws.com" then
    Ok (Response 200 "OK" url ip_text
                 (raise JSONDecodeError "Expecting value"))
  else if String.eqb url "http://ip-api.com/json/203.0.113.7" then
    Ok (Response 200 "OK" url "" (Ok sample_geo))
  else if String.prefix "https://api.open-meteo.com/" url then
    Ok (Response 200 "OK" url "" (Ok sample_data))
  else raise ConnectionError "Name or service not known".

Definition sample_world : world :=
  World (answering "203.0.113.7") sample_now.


(** The same again, the answer of the IP service standing between a
    no-break space (U+00A0) and a newline. *)
Definition padded_world : world :=
  World (answering (String.append (utf8 [194; 160]%nat)
                                  (String.append "203.0.113.7" newline)))
        sample_now.

(** A network where the forecast service cannot be reached. *)
Definition offline_world : world :=
  World (fun url =>
           if String.prefix "https://api.open-meteo.com/" url
           then raise ConnectionError "Connection refused"
           else answering "203.0.113.7" url)
        sample_now.

(** ** Vocabulary of the further properties *)

(** A [">"] or a newline occurs in [s]: what decides the fate of a ["<"]
    standing before [s]. *)
Fixpoint has_special (s : string) : bool :=
  match s with
  | EmptyString => false
  | String c rest =>
      Ascii.eqb c ">" || Ascii.eqb c "010" || has_special rest
  end.

(** Some ["<"] of [s] is followed, within [s], by neither a [">"] nor a
    newline: whether it opens a tag depends on what comes after [s]. *)
Fixpoint dangling (s : string) : bool :=
  match s with
  | EmptyString => false
  | String c rest =>
      (Ascii.eqb c "<" && negb (has_special rest)) || dangling rest
  end.

(** The visible width of a line: its length once the tags are gone. *)
Definition visible_width (line : string) : nat := str_len (strip_tags line).

(** The position of the first item [f] accepts, and the length of the list
    when there is none. *)
Fixpoint first_index {A} (f : A -> bool) (l : list A) : nat :=
  match l with
  | [] => O
  | x :: rest => if f x then O else S (first_index f rest)
  end.

(** The rank of the colour of a temperature of value [q] in [TEMP_COLORS]. *)
Definition bucket (q : Q) : nat :=
  Nat.min (first_index (fun p => Qle_bool q (inject_Z (fst p))) TEMP_COLORS)
          (List.length TEMP_COLORS - 1).

Definition unknown_weather : string * string := ("❓", "Unknown").

Section FurtherVocabulary.
Context {R : Runtime}.










End FurtherVocabulary.


(** The object [fail] prints when the current weather cannot be
    extracted. *)
Definition parse_fallback : pyval :=
  PDict [ ("text", PStr "N/A");
          ("tooltip",
           PStr "<span foreground='#f4b8e4'>Failed to parse current weather</span>") ].

(** The object a run that ends normally prints. *)
Definition widget (text tooltip : string) : pyval :=
  PDict [ ("text", PStr text);
          ("tooltip", PStr tooltip);
          ("markup", PStr "pango") ].

(** The four headings of the tooltip, in order. *)
Definition headings (location_name : string) : list string :=
  [ String.append "🌍 Current Weather - " location_name;
    "☀️ Today Forecast:";
    "⛅ Tomorrow Forecast:";
    "📅 Upcoming 5-day Forecast:" ].

(** The lines of the tooltip before they are joined. *)
Definition tooltip_lines (sections : list (list string * string))
           (max_len : nat) : list string :=
  flat_map (fun sec => render_section (fst sec) (snd sec) max_len) sections.

(** No line and no heading of the sections has a dangling ["<"]. *)
Definition well_tagged (sections : list (list string * string)) : Prop :=
  Forall (fun sec => dangling (snd sec) = false /\
                     Forall (fun line => dangling line = false) (fst sec))
         sections.

(** The world [w] with [r] as the answer to [url]. *)
Definition with_answer (w : world) (url : string) (r : result response)
  : world :=
  World (fun u => if String.eqb u url then r else http_get w u) (clock w).

(** A network that serves [data] as the forecast. *)
Definition serving (data : pyval) : world :=
  World (fun url =>
           if String.prefix "https://api.open-meteo.com/" url
           then Ok (Response 200 "OK" url "" (Ok data))
           else answering "203.0.113.7" url)
        sample_now.

(** A payload whose hourly arrays are empty. *)
Definition timeless_data : pyval :=
  PDict [ ("current_weather",
           PDict [("temperature", PInt 20); ("weathercode", PInt 3)]);
          ("hourly", PDict [("time", PList [])]);
          ("daily", sample_daily) ].

(** A payload without its daily part. *)
Definition no_daily_data : pyval :=
  PDict [ ("current_weather",
           PDict [("temperature", PInt 20); ("weathercode", PInt 3)]);
          ("hourly", sample_hourly) ].

(** A network where only the forecast service answers. *)
Definition unlocated_world : world :=
  World (fun url =>
           if String.prefix "https://api.open-meteo.com/" url
           then Ok (Response 200 "OK" url "" (Ok sample_data))
           else raise ConnectionError "Network is unreachable")
        sample_now.

(** ** Theorems *)

Lemma temp_to_color_scan_num (t : pyval) (q : Q) (table : list (Z * string)) :
  num_value t = Some q ->
  temp_to_color_scan t table =
    Ok (option_map snd
          (find (fun p => Qle_bool q (inject_Z (fst p))) table)).
Proof.
  intros Hq. induction table as [|[b c] rest IH]; simpl; [reflexivity|].
  unfold py_le. rewrite Hq. simpl.
  destruct (Qle_bool q (inject_Z b)); [reflexivity | exact IH].
Qed.

Lemma find_split {A} (f : A -> bool) (l : list A) (x : A) :
  find f l = Some x ->
  exists pre post, l = pre ++ x :: post /\ f x = true /\
                   Forall (fun y => f y = false) pre.
Proof.
  induction l as [|a l IH]; simpl; [discriminate|].
  destruct (f a) eqn:Fa.
  - intros [= ->]. exists [], l. repeat split; auto.
  - intros H. destruct (IH H) as (pre & post & -> & Hx & Hpre).
    exists (a :: pre), post. repeat split; auto.
Qed.

Lemma find_none_all {A} (f : A -> bool) (l : list A) :
  find f l = None -> Forall (fun y => f y = false) l.
Proof.
  induction l as [|a l IH]; simpl; [constructor|].
  destruct (f a) eqn:Fa; [discriminate|]. auto.
Qed.

(** C6: for a numeric temperature [t] of value [q], [temp_to_color] returns
    the colour paired with the first bound of the ascending [TEMP_COLORS]
    that is [>= q], and the last colour of the table when no bound is;
    14 gets the first bucket, 33 its own bucket and 50 the last one. *)
Theorem temp_to_color_first_bound (t : pyval) (q : Q) :
  num_value t = Some q ->
  StronglySorted Z.lt (bounds TEMP_COLORS) /\
  ((exists pre b c post,
       TEMP_COLORS = pre ++ (b, c) :: post /\
       (q <= inject_Z b)%Q /\
       Forall (fun p => (inject_Z (fst p) < q)%Q) pre /\
       temp_to_color t = Ok c)
   \/
   (Forall (fun p => (inject_Z (fst p) < q)%Q) TEMP_COLORS /\
    temp_to_color t = Ok "#e78284")) /\
  temp_to_color (PInt 14) = Ok "#8caaee" /\
  temp_to_color (PInt 33) = Ok "#ea999c" /\
  temp_to_color (PInt 50) = Ok "#e78284".
Proof.
  intros Hq. split; [|split; [|repeat split]].
  - unfold bounds, TEMP_COLORS; simpl.
    repeat (constructor; [|repeat (constructor; try lia)]). constructor.
  - unfold temp_to_color. rewrite (temp_to_color_scan_num t q _ Hq).
    set (f := fun p : Z * string => Qle_bool q (inject_Z (fst p))).
    assert (Hneg : forall l, Forall (fun y => f y = false) l ->
                             Forall (fun p => (inject_Z (fst p) < q)%Q) l).
    { intros l Hl. eapply Forall_impl; [|exact Hl]. intros p Hp. unfold f in Hp.
      apply Qnot_le_lt. intros Hle. apply Qle_bool_iff in Hle. congruence. }
    destruct (find f TEMP_COLORS) as [[b c]|] eqn:Hf.
    + left. destruct (find_split _ _ _ Hf) as (pre & post & E & Hb & Hpre).
      exists pre, b, c, post. repeat split; auto.
      apply Qle_bool_iff. exact Hb.
    + right. split; [apply Hneg, find_none_all; exact Hf | reflexivity].
Qed.

Lemma temp_to_color_first_bound_witness :
  num_value (PFloat (41 # 2)) = Some (41 # 2) /\
  (exists pre b c post,
      TEMP_COLORS = pre ++ (b, c) :: post /\
      (41 # 2 <= inject_Z b)%Q /\
      Forall (fun p => (inject_Z (fst p) < 41 # 2)%Q) pre /\
      temp_to_color (PFloat (41 # 2)) = Ok c).
Proof.
  split; [reflexivity|].
  destruct (temp_to_color_first_bound (PFloat (41 # 2)) (41 # 2) eq_refl)
    as (_ & [H | [H _]] & _); [exact H|].
  exfalso. apply Forall_inv_tail, Forall_inv_tail, Forall_inv in H.
  revert H. apply Qle_not_lt. discriminate.
Defined.

(** *** The error monad and the loops *)

Lemma bind_ok {A B} (r : result A) (k : A -> result B) (b : B) :
  bind r k = Ok b -> exists a, r = Ok a /\ k a = Ok b.
Proof.
  destruct r as [a|e]; simpl; [eauto | discriminate].
Qed.

Ltac bind_inv H :=
  let a := fresh "a" in
  let E := fresh "E" in
  apply bind_ok in H; destruct H as (a & E & H).

Lemma for_each_invariant {A S} (body : S -> A -> result S)
      (I : list A -> S -> Prop) :
  (forall done x st st',
      I done st -> body st x = Ok st' -> I (done ++ [x]) st') ->
  forall items done st st',
    I done st -> for_each body items st = Ok st' -> I (done ++ items) st'.
Proof.
  intros Hstep items.
  induction items as [|x items IH]; intros done st st' HI H; simpl in H.
  - injection H as <-. now rewrite app_nil_r.
  - bind_inv H.
    replace (done ++ x :: items) with ((done ++ [x]) ++ items)
      by now rewrite <- app_assoc.
    eapply IH; [|exact H]. eapply Hstep; eauto.
Qed.

Lemma for_each_total {A S} (body : S -> A -> result S)
      (P : A -> Prop) (I : S -> Prop) :
  (forall st x, I st -> P x -> exists st', body st x = Ok st' /\ I st') ->
  forall items st,
    Forall P items -> I st ->
    exists st', for_each body items st = Ok st' /\ I st'.
Proof.
  intros Hstep items.
  induction items as [|x items IH]; intros st HP HI; simpl.
  - eauto.
  - inversion HP as [|? ? Px Pitems]; subst.
    destruct (Hstep st x HI Px) as (st1 & -> & HI1). simpl. eauto.
Qed.

Lemma zip3_Forall {A B C} (P : A -> Prop) (Q : B -> Prop) (T : C -> Prop)
      (a : list A) (b : list B) (c : list C) :
  Forall P a -> Forall Q b -> Forall T c ->
  Forall (fun e => P (fst (fst e)) /\ Q (snd (fst e)) /\ T (snd e))
         (zip3 a b c).
Proof.
  intros Ha. revert b c.
  induction Ha as [|x a Px Pa IH]; intros b c Hb Hc; simpl; [constructor|].
  destruct Hb as [|y b Qy Qb]; [constructor|].
  destruct Hc as [|z c Tz Tc]; [constructor|].
  constructor; simpl; auto.
Qed.

Lemma seq_index_in_range {A} (l : list A) (i : Z) :
  0 <= i < Z.of_nat (List.length l) -> exists x, seq_index l i = Ok x.
Proof.
  intros Hi. unfold seq_index.
  destruct (i <? 0) eqn:Hneg; [lia|].
  replace ((0 <=? i) && (i <? Z.of_nat (List.length l))) with true
    by (symmetry; apply andb_true_iff; lia).
  destruct (nth_error l (Z.to_nat i)) as [x|] eqn:Hx; [eauto|].
  apply nth_error_None in Hx. lia.
Qed.

Lemma seq_index_repeat {A} (x : A) (n : nat) (i : Z) :
  0 <= i < Z.of_nat n -> seq_index (repeat x n) i = Ok x.
Proof.
  intros Hi.
  destruct (seq_index_in_range (repeat x n) i) as (y & Hy);
    [now rewrite repeat_length|].
  rewrite Hy. f_equal. unfold seq_index in Hy.
  destruct (i <? 0); destruct (_ && _); try discriminate;
    destruct (nth_error _ _) eqn:Hn; try discriminate;
    injection Hy as <-; apply nth_error_In in Hn;
    now apply repeat_spec in Hn.
Qed.

(** *** Numbers *)

Lemma py_gt_num (a b : pyval) (r : bool) :
  py_gt a b = Ok r ->
  exists x y, num_value a = Some x /\ num_value b = Some y /\
              r = Qlt_bool y x.
Proof.
  unfold py_gt.
  destruct (num_value a) as [x|], (num_value b) as [y|]; try discriminate.
  intros [= <-]. eauto.
Qed.

Lemma Qlt_bool_iff (x y : Q) : Qlt_bool x y = true <-> (x < y)%Q.
Proof.
  unfold Qlt_bool. rewrite negb_true_iff. split.
  - intros H. apply Qnot_le_lt. intros Hle.
    apply Qle_bool_iff in Hle. congruence.
  - intros H. destruct (Qle_bool y x) eqn:E; [|reflexivity].
    apply Qle_bool_iff in E. exfalso. revert H. now apply Qle_not_lt.
Qed.

Lemma positive_iff (v : pyval) (q : Q) :
  num_value v = Some q -> (positive v <-> (0 < q)%Q).
Proof.
  intros Hq. unfold positive, py_gt. rewrite Hq. cbn [num_value].
  change (inject_Z 0) with 0%Q.
  rewrite <- Qlt_bool_iff. split; [now intros [= ->] | now intros ->].
Qed.

Lemma py_max_from_positive (l : list pyval) :
  forall best m,
    num_value best <> None ->
    Forall (fun p => num_value p <> None) l ->
    py_max_from best l = Ok m ->
    num_value m <> None /\
    (positive m <-> positive best \/ Exists positive l).
Proof.
  induction l as [|x l IH]; intros best m Hb Hl H; simpl in H.
  - injection H as <-. split; [exact Hb|].
    split; [auto | intros [P | P]; [exact P | inversion P]].
  - inversion Hl as [|? ? Hx Hl']; subst.
    bind_inv H. rename a into b.
    destruct (py_gt_num _ _ _ E) as (qx & qb & Ex & Eb & ->).
    assert (Hbest : num_value (if Qlt_bool qb qx then x else best) <> None)
      by (destruct (Qlt_bool qb qx); assumption).
    destruct (IH _ _ Hbest Hl' H) as (Hm & Hiff). split; [exact Hm|].
    rewrite Hiff, Exists_cons.
    rewrite (positive_iff x qx Ex), (positive_iff best qb Eb).
    destruct (Qlt_bool qb qx) eqn:Hlt.
    + rewrite (positive_iff x qx Ex). apply Qlt_bool_iff in Hlt.
      split; [tauto|]. intros [P | [P | P]]; auto.
      left. eapply Qlt_trans; eauto.
    + rewrite (positive_iff best qb Eb).
      assert (Hle : (qx <= qb)%Q).
      { apply Qnot_lt_le. intros C. apply Qlt_bool_iff in C. congruence. }
      split; [tauto|]. intros [P | [P | P]]; auto.
      left. eapply Qlt_le_trans; eauto.
Qed.

Lemma py_max_positive (l : list pyval) (m : pyval) :
  Forall (fun p => num_value p <> None) l ->
  py_max l = Ok m ->
  (positive m <-> Exists positive l).
Proof.
  destruct l as [|x l]; simpl; [discriminate|].
  intros Hl H. inversion Hl; subst.
  destruct (py_max_from_positive l x m) as (_ & Hiff); auto.
  now rewrite Hiff, Exists_cons.
Qed.

(** *** Today's rain *)

Section Rain.
Context {R : Runtime}.

Lemma future_today_true (now dt : datetime) :
  future_today now dt = Ok true <->
  date_eqb (dt_date dt) (dt_date now) = true /\ dt_ge dt now = Ok true.
Proof.
  unfold future_today.
  destruct (date_eqb (dt_date dt) (dt_date now)); split.
  - auto.
  - now intros [_ H].
  - discriminate.
  - now intros [H _].
Qed.

Lemma rainy_at_iff (now : datetime) (t prob precip : pyval) (dt : datetime) :
  py_fromisoformat t = Ok dt ->
  (rainy now (t, prob, precip) <->
   future_today now dt = Ok true /\ positive prob).
Proof.
  intros Hdt. rewrite future_today_true. unfold rainy, rainy_at. split.
  - intros (dt' & Hp & Hd & Hge & Hpos).
    rewrite Hdt in Hp. injection Hp as <-. auto.
  - intros ((Hd & Hge) & Hpos). exists dt. auto.
Qed.

Lemma rain_body_keeps_inv (now : datetime) done entry st st' :
  rain_inv now done st ->
  rain_body now st entry = Ok st' ->
  rain_inv now (done ++ [entry]) st'.
Proof.
  intros (Hnum & Hiff & Hstart) H.
  destruct entry as [[t prob] precip]. unfold rain_body in H.
  bind_inv H. rename a into dt, E into Hdt.
  bind_inv H. rename a into keep, E into Hkeep.
  pose proof (rainy_at_iff now t prob precip dt Hdt) as Hrainy.
  destruct keep.
  - bind_inv H. rename a into total.
    bind_inv H. rename a into pos, E0 into Hpos.
    destruct (py_gt_num _ _ _ Hpos) as (q & _ & Hq & _ & _).
    assert (Hnum' : Forall (fun p => num_value p <> None)
                           (rain_probs st ++ [prob])).
    { apply Forall_app. split; [exact Hnum|].
      constructor; [congruence | constructor]. }
    assert (Hiff' : Exists positive (rain_probs st ++ [prob]) <->
                    Exists (rainy now) (done ++ [(t, prob, precip)])).
    { rewrite !Exists_app, Hiff, !Exists_cons, !Exists_nil, Hrainy. tauto. }
    destruct pos.
    + assert (Hr : rainy now (t, prob, precip)) by (apply Hrainy; auto).
      destruct (rain_start_time st) as [start|] eqn:Hs;
        injection H as <-; (split; [exact Hnum'|]); (split; [exact Hiff'|]);
        cbn [rain_start_time].
      * destruct Hstart as (pre & e & post & -> & Hpre & He).
        exists pre, e, (post ++ [(t, prob, precip)]).
        rewrite <- app_assoc. auto.
      * exists done, (t, prob, precip), []. repeat split; auto.
        -- apply future_today_true in Hkeep. tauto.
        -- apply future_today_true in Hkeep. tauto.
    + assert (Hr : ~ rainy now (t, prob, precip)).
      { rewrite Hrainy. unfold positive. intros [_ C]. congruence. }
      assert (st' = RainState (rain_probs st ++ [prob])
                              (rain_start_time st) total)
        by (destruct (rain_start_time st); congruence).
      subst st'. split; [exact Hnum'|]. split; [exact Hiff'|].
      cbn [rain_start_time].
      destruct (rain_start_time st) as [start|].
      * destruct Hstart as (pre & e & post & -> & Hpre & He).
        exists pre, e, (post ++ [(t, prob, precip)]).
        rewrite <- app_assoc. auto.
      * apply Forall_app. split; [exact Hstart|]. constructor; auto.
  - injection H as <-.
    assert (Hr : ~ rainy now (t, prob, precip)).
    { rewrite Hrainy. intros [C _]. congruence. }
    split; [exact Hnum|]. split.
    + rewrite Hiff, Exists_app, Exists_cons, Exists_nil. tauto.
    + destruct (rain_start_time st) as [start|].
      * destruct Hstart as (pre & e & post & -> & Hpre & He).
        exists pre, e, (post ++ [(t, prob, precip)]).
        rewrite <- app_assoc. auto.
      * apply Forall_app. split; [exact Hstart|]. constructor; auto.
Qed.

Lemma rain_loop_inv (now : datetime) entries st :
  for_each (rain_body now) entries (RainState [] None (PInt 0)) = Ok st ->
  rain_inv now entries st.
Proof.
  intros H.
  apply (for_each_invariant (rain_body now) (rain_inv now)
           (rain_body_keeps_inv now) entries [] _ st) in H; [exact H|].
  split; [constructor|]. split; [|constructor].
  split; intros C; inversion C.
Qed.

(** The block the state [st] gives is whole or absent, and present exactly
    when a probability kept by the loop is positive. *)
Lemma rain_block_shape (st : rain_state) (lines : list string) :
  Forall (fun p => num_value p <> None) (rain_probs st) ->
  rain_block st = Ok lines ->
  (lines = [] /\ ~ Exists positive (rain_probs st)) \/
  (exists first total,
      lines = [first; rain_start_line (rain_start_time st); total; ""] /\
      Exists positive (rain_probs st)).
Proof.
  intros Hnum H. unfold rain_block in H.
  destruct (rain_probs st) as [|p ps] eqn:Hp.
  - injection H as <-. left. split; [reflexivity | intros C; inversion C].
  - bind_inv H. rename a into m, E into Hm.
    bind_inv H. rename a into b, E into Hb.
    pose proof (py_max_positive _ _ Hnum Hm) as Hiff.
    destruct b.
    + bind_inv H. injection H as <-. right.
      eexists _, _. split; [reflexivity|]. apply Hiff. exact Hb.
    + injection H as <-. left. split; [reflexivity|].
      intros C. apply Hiff in C. unfold positive in C. congruence.
Qed.

End Rain.

Section RainProperties.
Context {R : Runtime}.

Lemma int_to_float_0 : int_to_float 0 = Ok (float_round (inject_Z 0)).
Proof. reflexivity. Qed.

Lemma py_add_amount (a b : pyval) :
  is_amount a = true -> is_amount b = true ->
  exists c, py_add a b = Ok c /\ is_amount c = true.
Proof.
  destruct a as [| | [| |] | | | |], b as [| | [| |] | | | |];
    try discriminate; intros _ _; unfold py_add; cbn [int_value to_float];
    try rewrite int_to_float_0; cbn [bind]; eauto.
Qed.

Lemma is_number_num (v : pyval) :
  is_number v = true -> num_value v <> None.
Proof.
  unfold is_number. destruct (num_value v); [discriminate | discriminate].
Qed.

Lemma py_gt_total (a b : pyval) :
  num_value a <> None -> num_value b <> None -> exists r, py_gt a b = Ok r.
Proof.
  unfold py_gt. destruct (num_value a), (num_value b); try congruence; eauto.
Qed.

Lemma py_max_from_total (l : list pyval) :
  forall best,
    num_value best <> None ->
    Forall (fun p => num_value p <> None) l ->
    exists m, py_max_from best l = Ok m /\ num_value m <> None.
Proof.
  induction l as [|x l IH]; intros best Hb Hl; simpl; [eauto|].
  inversion Hl; subst.
  destruct (py_gt_total x best) as (r & ->); auto. simpl.
  apply IH; [destruct r|]; auto.
Qed.

Lemma format_fixed1_amount (v : pyval) :
  is_amount v = true -> exists s, format_fixed1 v = Ok s.
Proof.
  destruct v as [| | [| |] | | | |]; try discriminate; intros _;
    unfold format_fixed1; try rewrite int_to_float_0; cbn [bind]; eauto.
Qed.

Lemma rain_block_total (st : rain_state) :
  rain_state_ok st -> exists lines, rain_block st = Ok lines.
Proof.
  intros (Hnum & Hamount). unfold rain_block.
  destruct (rain_probs st) as [|p ps] eqn:Hp; [eauto|].
  inversion Hnum; subst.
  destruct (py_max_from_total ps p) as (m & Hm & Hmn); auto.
  cbn [py_max]. rewrite Hm. cbn [bind].
  destruct (py_gt_total m (PInt 0)) as (r & ->); [auto | discriminate|].
  cbn [bind]. destruct r; [|eauto].
  destruct (format_fixed1_amount _ Hamount) as (s & ->). cbn [bind]. eauto.
Qed.

Lemma rain_body_total (now : datetime) st entry :
  utcoffset now = None ->
  rain_state_ok st -> rain_entry_ok entry ->
  exists st', rain_body now st entry = Ok st' /\ rain_state_ok st'.
Proof.
  intros Hnow (Hnum & Hamount) (Ht & Hp & Ha).
  destruct entry as [[t prob] precip]. cbn [fst snd] in Ht, Hp, Ha.
  unfold rain_body. unfold naive_timestamp in Ht.
  destruct (py_fromisoformat t) as [dt|]; [|discriminate]. cbn [bind].
  destruct (utcoffset dt) eqn:Hoff; [discriminate|].
  assert (Hk : exists keep, future_today now dt = Ok keep).
  { unfold future_today, dt_ge, comparable. rewrite Hoff, Hnow.
    destruct (date_eqb _ _); eauto. }
  destruct Hk as (keep & ->). cbn [bind].
  destruct keep; [|exists st; split; [reflexivity | split; assumption]].
  destruct (py_add_amount _ _ Hamount Ha) as (total & -> & Htotal).
  cbn [bind].
  destruct (py_gt_total prob (PInt 0)) as (r & ->);
    [now apply is_number_num | discriminate|].
  cbn [bind].
  assert (Hnum' : Forall (fun p => num_value p <> None)
                         (rain_probs st ++ [prob])).
  { apply Forall_app. split; [exact Hnum|].
    constructor; [now apply is_number_num | constructor]. }
  destruct r, (rain_start_time st); eexists; (split; [reflexivity|]);
    split; assumption.
Qed.

Lemma forallb_Forall_true {A} (f : A -> bool) (l : list A) :
  forallb f l = true -> Forall (fun x => f x = true) l.
Proof. intros H. apply Forall_forall. now apply forallb_forall. Qed.

Lemma repeat_Forall {A} (P : A -> Prop) (x : A) (n : nat) :
  P x -> Forall P (repeat x n).
Proof. intros Px. induction n; simpl; constructor; auto. Qed.

Lemma rain_entries_ok (hourly : pyval) :
  rain_payload_ok hourly = true ->
  exists entries, rain_entries hourly = Ok entries /\
                  Forall rain_entry_ok entries.
Proof.
  destruct hourly as [| | | | | |d]; try discriminate. cbn [rain_payload_ok].
  rewrite !andb_true_iff. intros ((Ht & Hp) & Ha).
  unfold rain_entries, py_getitem, py_get, py_zip3.
  destruct (lookup "time" d) as [[| | | | |ts|]|]; try discriminate.
  cbn [required_array] in Ht. cbn [bind py_len].
  assert (Hprobs : exists ps,
             match lookup "precipitation_probability" d with
             | Some x => Ok x
             | None => Ok (py_list_repeat (PInt 0) (Datatypes.length ts))
             end = Ok (PList ps) /\ Forall (fun x => is_number x = true) ps).
  { destruct (lookup "precipitation_probability" d) as [[| | | | |ps|]|];
      try discriminate.
    - exists ps. split; [reflexivity | now apply forallb_Forall_true].
    - eexists. split; [reflexivity | now apply repeat_Forall]. }
  assert (Hamts : exists qs,
             match lookup "precipitation" d with
             | Some x => Ok x
             | None => Ok (py_list_repeat (PInt 0) (Datatypes.length ts))
             end = Ok (PList qs) /\ Forall (fun x => is_amount x = true) qs).
  { destruct (lookup "precipitation" d) as [[| | | | |qs|]|];
      try discriminate.
    - exists qs. split; [reflexivity | now apply forallb_Forall_true].
    - eexists. split; [reflexivity | now apply repeat_Forall]. }
  destruct Hprobs as (ps & -> & Hps), Hamts as (qs & -> & Hqs).
  cbn [bind py_iter]. eexists. split; [reflexivity|].
  apply (zip3_Forall (fun t => naive_timestamp t = true)
           (fun p => is_number p = true) (fun a => is_amount a = true));
    auto.
  now apply forallb_Forall_true.
Qed.

Lemma build_today_rain_info_total (hourly : pyval) (now : datetime) :
  rain_payload_ok hourly = true -> utcoffset now = None ->
  exists lines, build_today_rain_info hourly now = Ok lines.
Proof.
  intros Hok Hnow. unfold build_today_rain_info.
  destruct (rain_entries_ok hourly Hok) as (entries & -> & Hentries).
  cbn [bind].
  destruct (for_each_total (rain_body now) rain_entry_ok rain_state_ok
              (fun st x => rain_body_total now st x Hnow) entries
              (RainState [] None (PInt 0)) Hentries)
    as (st & -> & Hst).
  { split; [constructor | reflexivity]. }
  cbn [bind]. now apply rain_block_total.
Qed.


(** C10: [build_today_rain_info] returns either no line or exactly four
    lines, the last one empty, never a block of one, two or three lines; it
    does return on a payload whose timestamps are naive and whose
    probabilities and amounts are numbers. *)
Theorem rain_block_whole_or_absent (hourly : pyval) (now : datetime) :
  (rain_payload_ok hourly = true -> utcoffset now = None ->
   exists lines, build_today_rain_info hourly now = Ok lines) /\
  (forall lines,
      build_today_rain_info hourly now = Ok lines ->
      lines = [] \/
      (exists a b c, lines = [a; b; c; ""]) /\
      List.length lines = 4%nat /\ last lines "-" = "").
Proof.
  split; [apply build_today_rain_info_total|].
  intros lines H. unfold build_today_rain_info in H.
  bind_inv H. rename a into entries. bind_inv H. rename a into st.
  destruct (rain_loop_inv now entries st E0) as (Hnum & _ & _).
  destruct (rain_block_shape st lines Hnum H)
    as [(-> & _) | (first & total & -> & _)]; [now left | right].
  split; [eauto | split; reflexivity].
Qed.

End RainProperties.

(** *** The hourly and tomorrow builders *)

Section Forecast.
Context {R : Runtime}.




Lemma mapM_length {A B} (f : A -> result B) (l : list A) (l' : list B) :
  mapM f l = Ok l' -> List.length l' = List.length l.
Proof.
  revert l'. induction l as [|x l IH]; intros l' H; simpl in H.
  - now injection H as <-.
  - bind_inv H. bind_inv H. injection H as <-. simpl. f_equal. auto.
Qed.

Lemma mapM_Forall2 {A B} (f : A -> result B) (l : list A) (l' : list B) :
  mapM f l = Ok l' -> Forall2 (fun x y => f x = Ok y) l l'.
Proof.
  revert l'. induction l as [|x l IH]; intros l' H; simpl in H.
  - injection H as <-. constructor.
  - bind_inv H. bind_inv H. injection H as <-. constructor; auto.
Qed.

Lemma get_weather_info_number (code : pyval) :
  is_number code = true -> exists info, get_weather_info code = Ok info.
Proof.
  unfold get_weather_info.
  destruct code; try discriminate; intros _; cbn [int_key bind].
  - destruct (assoc_Z _ _); eauto.
  - destruct (assoc_Z _ _); eauto.
  - destruct (_ =? 0); cbn [bind]; [destruct (assoc_Z _ _)|]; eauto.
Qed.

Lemma temp_to_color_number (temp : pyval) :
  is_number temp = true -> exists color, temp_to_color temp = Ok color.
Proof.
  unfold is_number. destruct (num_value temp) as [q|] eqn:Hq;
    [intros _ | discriminate].
  unfold temp_to_color. rewrite (temp_to_color_scan_num temp q _ Hq).
  cbn [bind]. destruct (option_map _ _); eauto.
Qed.

Lemma format_right2_number (temp : pyval) :
  is_number temp = true -> exists s, format_right2 temp = Ok s.
Proof.
  destruct temp; try discriminate; intros _; cbn; eauto.
Qed.

Lemma hourly_line_total (dt : datetime) (temp code : pyval) :
  is_number temp = true -> is_number code = true ->
  exists line, hourly_line dt temp code = Ok line.
Proof.
  intros Ht Hc. unfold hourly_line.
  destruct (get_weather_info_number code Hc) as ([icon desc] & ->).
  destruct (temp_to_color_number temp Ht) as (color & ->).
  destruct (format_right2_number temp Ht) as (s & ->).
  cbn [bind]. eauto.
Qed.

Lemma tomorrow_line_total (label : string) (temp code : pyval) :
  is_number temp = true -> is_number code = true ->
  exists line, tomorrow_line label temp code = Ok line.
Proof.
  intros Ht Hc. unfold tomorrow_line.
  destruct (get_weather_info_number code Hc) as ([icon desc] & ->).
  destruct (temp_to_color_number temp Ht) as (color & ->).
  destruct (format_right2_number temp Ht) as (s & ->).
  cbn [bind]. eauto.
Qed.

Lemma hourly_body_total (now : datetime) (for_date : date) lines entry :
  utcoffset now = None -> forecast_entry_ok entry ->
  exists lines', hourly_body now for_date lines entry = Ok lines' /\ True.
Proof.
  intros Hnow (Ht & Htemp & Hcode).
  destruct entry as [[t temp] code]. cbn [fst snd] in *.
  unfold hourly_body. unfold naive_timestamp in Ht.
  destruct (py_fromisoformat t) as [dt|]; [|discriminate]. cbn [bind].
  destruct (utcoffset dt) eqn:Hoff; [discriminate|].
  destruct (negb _); [eauto|].
  assert (Hp : exists past, already_past now for_date dt = Ok past).
  { unfold already_past, dt_lt, comparable. rewrite Hoff, Hnow.
    destruct (date_eqb _ _); eauto. }
  destruct Hp as (past & ->). cbn [bind]. destruct past; [eauto|].
  destruct (hourly_line_total dt temp code Htemp Hcode) as (line & ->).
  cbn [bind]. eauto.
Qed.

Lemma tomorrow_body_total (tomorrow : date) lines entry :
  forecast_entry_ok entry ->
  exists lines', tomorrow_body tomorrow lines entry = Ok lines' /\ True.
Proof.
  intros (Ht & Htemp & Hcode).
  destruct entry as [[t temp] code]. cbn [fst snd] in *.
  unfold tomorrow_body. unfold naive_timestamp in Ht.
  destruct (py_fromisoformat t) as [dt|]; [|discriminate]. cbn [bind].
  destruct (negb _); [eauto|].
  destruct (assoc_Z _ _) as [label|]; [|eauto].
  destruct (tomorrow_line_total label temp code Htemp Hcode) as (line & ->).
  cbn [bind]. eauto.
Qed.

Lemma forecast_entries_ok (hourly : pyval) :
  forecast_payload_ok hourly = true ->
  exists entries, forecast_entries hourly = Ok entries /\
                  Forall forecast_entry_ok entries.
Proof.
  destruct hourly as [| | | | | |d]; try discriminate.
  cbn [forecast_payload_ok]. rewrite !andb_true_iff.
  intros ((Ht & Hp) & Hc).
  unfold forecast_entries, py_getitem, py_zip3.
  destruct (lookup "time" d) as [[| | | | |ts|]|]; try discriminate.
  destruct (lookup "temperature_2m" d) as [[| | | | |ps|]|];
    try discriminate.
  destruct (lookup "weathercode" d) as [[| | | | |cs|]|]; try discriminate.
  cbn [required_array] in *. cbn [bind py_iter].
  eexists. split; [reflexivity|].
  apply (zip3_Forall (fun t => naive_timestamp t = true)
           (fun p => is_number p = true) (fun a => is_number a = true));
    now apply forallb_Forall_true.
Qed.

Lemma build_hourly_forecast_total hourly now for_date :
  forecast_payload_ok hourly = true -> utcoffset now = None ->
  exists lines, build_hourly_forecast hourly now for_date = Ok lines.
Proof.
  intros Hok Hnow. unfold build_hourly_forecast.
  destruct (forecast_entries_ok hourly Hok) as (entries & -> & Hentries).
  cbn [bind].
  destruct (for_each_total (hourly_body now for_date) forecast_entry_ok
              (fun _ => True)
              (fun st x _ => hourly_body_total now for_date st x Hnow)
              entries [] Hentries I) as (lines & -> & _).
  cbn [bind]. destruct lines; eauto.
Qed.

Lemma build_tomorrow_forecast_total hourly tomorrow :
  forecast_payload_ok hourly = true ->
  exists lines, build_tomorrow_forecast hourly tomorrow = Ok lines.
Proof.
  intros Hok. unfold build_tomorrow_forecast.
  destruct (forecast_entries_ok hourly Hok) as (entries & -> & Hentries).
  cbn [bind].
  destruct (for_each_total (tomorrow_body tomorrow) forecast_entry_ok
              (fun _ => True)
              (fun st x _ => tomorrow_body_total tomorrow st x)
              entries [] Hentries I) as (lines & -> & _).
  cbn [bind]. destruct lines; eauto.
Qed.

Lemma build_hourly_forecast_nonempty hourly now for_date lines :
  build_hourly_forecast hourly now for_date = Ok lines -> lines <> [].
Proof.
  unfold build_hourly_forecast. intros H. bind_inv H. bind_inv H.
  destruct a0; injection H as <-; discriminate.
Qed.

Lemma build_tomorrow_forecast_nonempty hourly tomorrow lines :
  build_tomorrow_forecast hourly tomorrow = Ok lines -> lines <> [].
Proof.
  unfold build_tomorrow_forecast. intros H. bind_inv H. bind_inv H.
  destruct a0; injection H as <-; discriminate.
Qed.


End Forecast.

(** *** The coming days *)

Section Daily.
Context {R : Runtime}.

Lemma for_each_ext {A S} (body body' : S -> A -> result S) (items : list A) :
  (forall st x, In x items -> body st x = body' st x) ->
  forall st, for_each body items st = for_each body' items st.
Proof.
  induction items as [|x items IH]; intros Hext st; simpl; [reflexivity|].
  rewrite (Hext st x (or_introl eq_refl)).
  destruct (body' st x); simpl; [|reflexivity].
  apply IH. intros st' y Hy. apply Hext. now right.
Qed.

Lemma daily_loop_spec (dates max_temps min_temps codes : pyval) idxs :
  forall acc lines,
    for_each (daily_body dates max_temps min_temps codes) idxs acc = Ok lines ->
    exists body,
      mapM (daily_line dates max_temps min_temps codes) idxs = Ok body /\
      lines = acc ++ body.
Proof.
  induction idxs as [|i idxs IH]; intros acc lines H; simpl in H.
  - injection H as <-. exists []. now rewrite app_nil_r.
  - bind_inv H. unfold daily_body in E. bind_inv E. injection E as <-.
    destruct (IH _ _ H) as (body & Hbody & ->).
    exists (a0 :: body). cbn [mapM]. rewrite E0, Hbody. cbn [bind].
    now rewrite <- app_assoc.
Qed.

Lemma py_range_length (lo hi : Z) :
  List.length (py_range lo hi) = Z.to_nat (hi - lo).
Proof. unfold py_range. now rewrite length_map, length_seq. Qed.

Lemma py_range_In (lo hi i : Z) :
  In i (py_range lo hi) -> lo <= i < hi.
Proof.
  unfold py_range. rewrite in_map_iff. intros (k & <- & Hk).
  apply in_seq in Hk. lia.
Qed.

Lemma seq_index_tail {A} (x x' : A) (l : list A) (i : Z) :
  1 <= i -> seq_index (x :: l) i = seq_index (x' :: l) i.
Proof.
  intros Hi. unfold seq_index. cbn [List.length].
  destruct (i <? 0) eqn:Hneg; [lia|].
  destruct (Z.to_nat i) as [|k] eqn:Hk; [lia|]. reflexivity.
Qed.

Lemma daily_line_tail d0 d0' m0 m0' l0 l0' c0 c0' dates maxs mins codes i :
  1 <= i ->
  daily_line (PList (d0 :: dates)) (PList (m0 :: maxs)) (PList (l0 :: mins))
             (PList (c0 :: codes)) i
  = daily_line (PList (d0' :: dates)) (PList (m0' :: maxs))
               (PList (l0' :: mins)) (PList (c0' :: codes)) i.
Proof.
  intros Hi. unfold daily_line, py_index.
  now rewrite (seq_index_tail d0 d0'), (seq_index_tail m0 m0'),
    (seq_index_tail l0 l0'), (seq_index_tail c0 c0').
Qed.

Lemma build_daily_forecast_spec (daily : pyval) (days : Z) lines :
  build_daily_forecast daily days = Ok lines ->
  exists dates max_temps min_temps codes n,
    py_getitem daily "time" = Ok dates /\
    py_getitem daily "temperature_2m_max" = Ok max_temps /\
    py_getitem daily "temperature_2m_min" = Ok min_temps /\
    py_getitem daily "weathercode" = Ok codes /\
    py_len dates = Ok n /\
    mapM (daily_line dates max_temps min_temps codes)
         (py_range 1 (Z.min (days + 1) (Z.of_nat n))) = Ok lines.
Proof.
  intros H. unfold build_daily_forecast in H.
  bind_inv H. rename a into dates. bind_inv H. rename a into max_temps.
  bind_inv H. rename a into min_temps. bind_inv H. rename a into codes.
  bind_inv H. rename a into n.
  destruct (daily_loop_spec _ _ _ _ _ _ _ H) as (body & Hbody & ->).
  exists dates, max_temps, min_temps, codes, n. cbn [app]. auto 10.
Qed.

Lemma seq_index_Forall {A} (P : A -> Prop) (l : list A) (i : Z) :
  Forall P l -> 0 <= i < Z.of_nat (List.length l) ->
  exists x, seq_index l i = Ok x /\ P x.
Proof.
  intros HP Hi. destruct (seq_index_in_range l i Hi) as (x & Hx).
  exists x. split; [exact Hx|]. unfold seq_index in Hx.
  destruct (i <? 0); destruct (_ && _); try discriminate;
    destruct (nth_error _ _) eqn:Hn; try discriminate;
    injection Hx as <-; apply nth_error_In in Hn;
    rewrite Forall_forall in HP; auto.
Qed.

Lemma daily_line_total (dates maxs mins codes : list pyval) (i : Z) :
  List.length maxs = List.length dates ->
  List.length mins = List.length dates ->
  List.length codes = List.length dates ->
  forallb parses dates = true ->
  forallb is_number maxs = true ->
  forallb is_number mins = true ->
  forallb is_number codes = true ->
  0 <= i < Z.of_nat (List.length dates) ->
  exists line,
    daily_line (PList dates) (PList maxs) (PList mins) (PList codes) i
    = Ok line.
Proof.
  intros Lx Ln Lc Hd Hx Hn Hc Hi. unfold daily_line. cbn [py_index].
  destruct (seq_index_Forall _ dates i (forallb_Forall_true _ _ Hd) Hi)
    as (d & -> & Pd).
  destruct (seq_index_Forall _ codes i (forallb_Forall_true _ _ Hc))
    as (c & -> & Pc); [now rewrite Lc|].
  destruct (seq_index_Forall _ maxs i (forallb_Forall_true _ _ Hx))
    as (hi & -> & Phi); [now rewrite Lx|].
  destruct (seq_index_Forall _ mins i (forallb_Forall_true _ _ Hn))
    as (lo & -> & Plo); [now rewrite Ln|].
  cbn [bind]. unfold parses in Pd.
  destruct (py_fromisoformat d) as [dt|]; [|discriminate]. cbn [bind].
  destruct (get_weather_info_number c Pc) as ([icon desc] & ->).
  destruct (temp_to_color_number hi Phi) as (c_hi & ->).
  destruct (format_right2_number hi Phi) as (t_hi & ->).
  destruct (temp_to_color_number lo Plo) as (c_lo & ->).
  destruct (format_right2_number lo Plo) as (t_lo & ->).
  cbn [bind]. eauto.
Qed.

Lemma build_daily_forecast_total (dates maxs mins codes : list pyval)
      (days : Z) :
  List.length maxs = List.length dates ->
  List.length mins = List.length dates ->
  List.length codes = List.length dates ->
  forallb parses dates = true ->
  forallb is_number maxs = true ->
  forallb is_number mins = true ->
  forallb is_number codes = true ->
  exists lines,
    build_daily_forecast (daily_payload dates maxs mins codes) days = Ok lines.
Proof.
  intros Lx Ln Lc Hd Hx Hn Hc. unfold build_daily_forecast, daily_payload.
  cbn [py_getitem lookup String.eqb Ascii.eqb Bool.eqb bind py_len].
  destruct (for_each_total
              (daily_body (PList dates) (PList maxs) (PList mins)
                          (PList codes))
              (fun i => 0 <= i < Z.of_nat (List.length dates))
              (fun _ => True)) with
    (items := py_range 1 (Z.min (days + 1) (Z.of_nat (List.length dates))))
    (st := @nil string) as (lines & Hlines & _).
  - intros st i _ Hi. unfold daily_body.
    destruct (daily_line_total dates maxs mins codes i) as (line & ->);
      auto.
    cbn [bind]. eauto.
  - apply Forall_forall. intros i Hi. apply py_range_In in Hi. lia.
  - exact I.
  - eauto.
Qed.

(** C5, amended: [build_daily_forecast] renders the indices 1 to
    [min(days + 1, len) - 1], so it returns [max(0, min(days, len - 1))]
    lines, and what it returns does not depend on the entries at index 0;
    it does return on four arrays of one length that hold timestamps and
    numbers. *)
Theorem daily_forecast_skips_today (daily : pyval) (days : Z) :
  (forall lines,
      build_daily_forecast daily days = Ok lines ->
      exists dates max_temps min_temps codes n,
        py_getitem daily "time" = Ok dates /\
        py_getitem daily "temperature_2m_max" = Ok max_temps /\
        py_getitem daily "temperature_2m_min" = Ok min_temps /\
        py_getitem daily "weathercode" = Ok codes /\
        py_len dates = Ok n /\
        mapM (daily_line dates max_temps min_temps codes)
             (py_range 1 (Z.min (days + 1) (Z.of_nat n))) = Ok lines /\
        Z.of_nat (List.length lines)
        = Z.max 0 (Z.min days (Z.of_nat n - 1)) /\
        (forall i,
            In i (py_range 1 (Z.min (days + 1) (Z.of_nat n))) ->
            1 <= i <= Z.min (days + 1) (Z.of_nat n) - 1)) /\
  (forall d0 d0' m0 m0' l0 l0' c0 c0' dates maxs mins codes,
      build_daily_forecast
        (daily_payload (d0 :: dates) (m0 :: maxs) (l0 :: mins) (c0 :: codes))
        days
      = build_daily_forecast
          (daily_payload (d0' :: dates) (m0' :: maxs) (l0' :: mins)
                         (c0' :: codes))
          days) /\
  (forall dates maxs mins codes,
      List.length maxs = List.length dates ->
      List.length mins = List.length dates ->
      List.length codes = List.length dates ->
      forallb parses dates = true ->
      forallb is_number maxs = true ->
      forallb is_number mins = true ->
      forallb is_number codes = true ->
      exists lines,
        build_daily_forecast (daily_payload dates maxs mins codes) days
        = Ok lines).
Proof.
  split; [|split].
  - intros lines H.
    destruct (build_daily_forecast_spec daily days lines H)
      as (dates & max_temps & min_temps & codes & n
          & H1 & H2 & H3 & H4 & H5 & Hlines).
    exists dates, max_temps, min_temps, codes, n.
    repeat (split; [assumption|]). split.
    + rewrite (mapM_length _ _ _ Hlines), py_range_length. lia.
    + intros i Hi. apply py_range_In in Hi. lia.
  - intros. unfold build_daily_forecast, daily_payload.
    cbn [py_getitem lookup String.eqb Ascii.eqb Bool.eqb bind py_len
         List.length].
    apply for_each_ext. intros st i Hi. apply py_range_In in Hi.
    unfold daily_body. now rewrite (daily_line_tail d0 d0' m0 m0' l0 l0' c0 c0').
  - intros dates maxs mins codes. apply build_daily_forecast_total.
Qed.

Lemma build_daily_forecast_empty (daily dates : pyval) (days : Z) (n : nat)
      (lines : list string) :
  py_getitem daily "time" = Ok dates ->
  py_len dates = Ok n ->
  build_daily_forecast daily days = Ok lines ->
  days <= 0 \/ (n <= 1)%nat ->
  lines = [].
Proof.
  intros Hd Hn H Hsmall.
  destruct (build_daily_forecast_spec daily days lines H)
    as (dates' & max_temps & min_temps & codes & n'
        & H1 & _ & _ & _ & H5 & Hlines).
  rewrite Hd in H1. injection H1 as <-. rewrite Hn in H5. injection H5 as <-.
  apply mapM_length in Hlines. rewrite py_range_length in Hlines.
  destruct lines; [reflexivity|]. simpl in Hlines. lia.
Qed.

End Daily.

(** *** Placeholders and omissions *)

Section Omissions.
Context {R : Runtime}.

Lemma rain_block_present_iff (hourly : pyval) (now : datetime)
      (entries : list (pyval * pyval * pyval)) (lines : list string) :
  rain_entries hourly = Ok entries ->
  build_today_rain_info hourly now = Ok lines ->
  (lines <> [] <-> Exists (rainy now) entries).
Proof.
  intros Hentries H. unfold build_today_rain_info in H.
  rewrite Hentries in H. cbn [bind] in H. bind_inv H.
  destruct (rain_loop_inv now entries a E) as (Hnum & Hiff & _).
  destruct (rain_block_shape a lines Hnum H)
    as [(-> & Hno) | (first & total & -> & Hyes)].
  - split; [intros C; now contradiction C|].
    intros C. apply Hiff in C. contradiction.
  - split; [intros _; now apply Hiff | discriminate].
Qed.

(** C2, amended: the hourly and the tomorrow builders return at least one
    line, and do return on a well-formed payload; the multi-day builder has
    no placeholder and returns no line when [days <= 0] or the daily array
    has at most one entry; the rain block is empty when no rain is
    predicted. *)
Theorem placeholder_or_omission (hourly daily : pyval) (now : datetime)
        (for_date tomorrow : date) (days : Z) :
  (forall lines,
      build_hourly_forecast hourly now for_date = Ok lines -> lines <> []) /\
  (forall lines,
      build_tomorrow_forecast hourly tomorrow = Ok lines -> lines <> []) /\
  (forecast_payload_ok hourly = true -> utcoffset now = None ->
   (exists lines, build_hourly_forecast hourly now for_date = Ok lines) /\
   (exists lines, build_tomorrow_forecast hourly tomorrow = Ok lines)) /\
  (forall dates n lines,
      py_getitem daily "time" = Ok dates ->
      py_len dates = Ok n ->
      build_daily_forecast daily days = Ok lines ->
      days <= 0 \/ (n <= 1)%nat ->
      lines = []) /\
  (forall entries lines,
      rain_entries hourly = Ok entries ->
      build_today_rain_info hourly now = Ok lines ->
      ~ Exists (rainy now) entries ->
      lines = []).
Proof.
  split; [apply build_hourly_forecast_nonempty|].
  split; [apply build_tomorrow_forecast_nonempty|].
  split; [|split].
  - intros Hok Hnow. split.
    + now apply build_hourly_forecast_total.
    + now apply build_tomorrow_forecast_total.
  - intros dates n lines. apply build_daily_forecast_empty.
  - intros entries lines Hentries H Hdry.
    destruct lines as [|line lines]; [reflexivity|].
    exfalso. apply Hdry.
    apply (rain_block_present_iff hourly now entries (line :: lines));
      [assumption | assumption | discriminate].
Qed.

End Omissions.

(** *** The current hour *)

Section CurrentHour.
Context {R : Runtime}.

Lemma find_scan_spec (now : datetime) (items : list pyval) :
  forall k r,
    find_current_hour_scan now (enumerate_from k items) = Ok r ->
    match r with
    | Some i =>
        exists pre t post,
          items = pre ++ t :: post /\
          i = k + Z.of_nat (List.length pre) /\
          current_hour now t /\
          Forall (fun t' => ~ current_hour now t') pre
    | None => Forall (fun t => ~ current_hour now t) items
    end.
Proof.
  induction items as [|t items IH]; intros k r H; simpl in H.
  - injection H as <-. constructor.
  - bind_inv H. rename a into dt, E into Hdt.
    destruct ((hour dt =? hour now) && date_eqb (dt_date dt) (dt_date now))
      eqn:Hm.
    + injection H as <-. exists [], t, items. cbn [List.length app].
      repeat split; [lia | | constructor].
      apply andb_true_iff in Hm. destruct Hm as [Hh Hd].
      exists dt. apply Z.eqb_eq in Hh. auto.
    + assert (Hnot : ~ current_hour now t).
      { intros (dt' & Hp & Hh & Hd). rewrite Hdt in Hp.
        injection Hp as <-. apply Z.eqb_eq in Hh.
        rewrite Hh, Hd in Hm. discriminate. }
      specialize (IH _ _ H). destruct r as [i|].
      * destruct IH as (pre & t' & post & -> & -> & Ht' & Hpre).
        exists (t :: pre), t', post. cbn [List.length app].
        repeat split; [lia | assumption | now constructor].
      * now constructor.
Qed.

Lemma aligned_index (n : nat) (h : list (string * pyval)) (key : string)
      (default : pyval) (i : Z) :
  0 <= i < Z.of_nat n ->
  aligned n (lookup key h) = true ->
  exists v,
    (arr <- py_get (PDict h) key (py_list_repeat default n) ;;
     py_index arr i) = Ok v.
Proof.
  intros Hi Ha. cbn [py_get].
  destruct (lookup key h) as [[| | | | |l|]|]; try discriminate;
    cbn [aligned] in Ha; cbn [bind py_index py_list_repeat].
  - apply Nat.eqb_eq in Ha. apply seq_index_in_range. now rewrite Ha.
  - exists default. now apply seq_index_repeat.
Qed.

(** C9: on a non-empty list of timestamps, [find_current_hour_index]
    returns an index [i] with [0 <= i < len], that of the first entry of
    [now]'s date and hour, or 0 when there is none; so indexing at [i] an
    array as long as the timestamps, or the default array, is in range, and
    [extract_current_weather] returns when every hourly array it reads is
    absent or that long. *)
Theorem current_hour_index_in_range (items : list pyval) (now : datetime)
        (i : Z) :
  items <> [] ->
  find_current_hour_index (PList items) now = Ok i ->
  0 <= i < Z.of_nat (List.length items) /\
  ((exists pre t post,
       items = pre ++ t :: post /\
       i = Z.of_nat (List.length pre) /\
       current_hour now t /\
       Forall (fun t' => ~ current_hour now t') pre)
   \/ (i = 0 /\ Forall (fun t => ~ current_hour now t) items)) /\
  (forall arr,
      List.length arr = List.length items ->
      exists v, py_index (PList arr) i = Ok v) /\
  (forall x, py_index (py_list_repeat x (List.length items)) i = Ok x) /\
  (forall data current hourly temp code,
      py_getitem data "current_weather" = Ok current ->
      py_getitem current "temperature" = Ok temp ->
      py_getitem current "weathercode" = Ok code ->
      py_getitem data "hourly" = Ok (PDict hourly) ->
      lookup "time" hourly = Some (PList items) ->
      aligned (List.length items) (lookup "apparent_temperature" hourly)
      = true ->
      aligned (List.length items) (lookup "relativehumidity_2m" hourly)
      = true ->
      aligned (List.length items) (lookup "windspeed_10m" hourly) = true ->
      exists w,
        extract_current_weather data now = Ok w /\
        w_temp w = temp /\ w_code w = code).
Proof.
  intros Hne H.
  assert (Hfind := H).
  unfold find_current_hour_index in H. cbn [py_iter bind] in H.
  bind_inv H. rename a into r, E into Hscan.
  apply find_scan_spec in Hscan.
  assert (Hrange : 0 <= i < Z.of_nat (List.length items) /\
    ((exists pre t post,
         items = pre ++ t :: post /\
         i = Z.of_nat (List.length pre) /\
         current_hour now t /\
         Forall (fun t' => ~ current_hour now t') pre)
     \/ (i = 0 /\ Forall (fun t => ~ current_hour now t) items))).
  { destruct r as [j|]; injection H as <-.
    - destruct Hscan as (pre & t & post & -> & -> & Ht & Hpre). split.
      + rewrite length_app. cbn [List.length]. lia.
      + left. exists pre, t, post. auto.
    - split; [|now right]. destruct items; [congruence|].
      cbn [List.length]. lia. }
  destruct Hrange as (Hi & Hwhich). split; [exact Hi|].
  split; [exact Hwhich|]. split; [|split].
  - intros arr Hlen. cbn [py_index]. apply seq_index_in_range.
    now rewrite Hlen.
  - intros x. cbn [py_index py_list_repeat]. now apply seq_index_repeat.
  - intros data current hourly temp code Hc Ht Hcode Hh Htime Ha1 Ha2 Ha3.
    unfold extract_current_weather.
    rewrite Hc, Hh. cbn [bind py_getitem]. rewrite Htime. cbn [bind].
    rewrite Hfind. cbn [bind]. cbn [py_getitem] in Ht, Hcode.
    rewrite Ht, Hcode. cbn [bind py_len].
    destruct (aligned_index _ hourly "apparent_temperature" temp i Hi Ha1)
      as (v1 & Hv1).
    destruct (aligned_index _ hourly "relativehumidity_2m" (PInt 0) i Hi Ha2)
      as (v2 & Hv2).
    destruct (aligned_index _ hourly "windspeed_10m" (PInt 0) i Hi Ha3)
      as (v3 & Hv3).
    bind_inv Hv1. rewrite E. cbn [bind]. rewrite Hv1. cbn [bind].
    bind_inv Hv2. rewrite E0. cbn [bind]. rewrite Hv2. cbn [bind].
    bind_inv Hv3. rewrite E1. cbn [bind]. rewrite Hv3. cbn [bind].
    eexists. split; [reflexivity|]. split; reflexivity.
Qed.

End CurrentHour.

(** *** Location, fetch and the whole run *)

(** C7: [get_location_by_ip] is total: it returns the fallback triple
    [(0.0, 0.0, "Your Location")] or the looked-up latitude, longitude and
    city; every exception of the lookup (network, status, JSON, a missing
    ["lat"] or ["lon"]) gives the fallback, and a missing ["city"] alone
    gives the looked-up coordinates with "Your Location". *)
Theorem location_lookup_never_raises (w : world) :
  (get_location_by_ip w = fallback_location \/
   exists r1 r2 data lat lon,
     http_get w "https://checkip.amazonaws.com" = Ok r1 /\
     http_get w (fstr ["http://ip-api.com/json/"; str_strip (text r1)])
     = Ok r2 /\
     raise_for_status r2 = Ok tt /\
     resp_json r2 = Ok (PDict data) /\
     lookup "lat" data = Some lat /\
     lookup "lon" data = Some lon /\
     get_location_by_ip w
     = (lat, lon,
        match lookup "city" data with
        | Some city => city
        | None => PStr "Your Location"
        end)) /\
  (forall e, lookup_location w = Raise e ->
             get_location_by_ip w = fallback_location) /\
  (forall r1 r2 data lat lon,
      http_get w "https://checkip.amazonaws.com" = Ok r1 ->
      http_get w (fstr ["http://ip-api.com/json/"; str_strip (text r1)])
      = Ok r2 ->
      raise_for_status r2 = Ok tt ->
      resp_json r2 = Ok (PDict data) ->
      lookup "lat" data = Some lat ->
      lookup "lon" data = Some lon ->
      lookup "city" data = None ->
      get_location_by_ip w = (lat, lon, PStr "Your Location")) /\
  (forall r1 r2 data,
      http_get w "https://checkip.amazonaws.com" = Ok r1 ->
      http_get w (fstr ["http://ip-api.com/json/"; str_strip (text r1)])
      = Ok r2 ->
      resp_json r2 = Ok (PDict data) ->
      lookup "lat" data = None \/ lookup "lon" data = None ->
      get_location_by_ip w = fallback_location).
Proof.
  split; [|split; [|split]].
  - unfold get_location_by_ip.
    destruct (lookup_location w) as [[[lat lon] city]|e] eqn:H;
      [right | now left].
    unfold lookup_location in H.
    bind_inv H. rename a into r1. bind_inv H. rename a into r2.
    bind_inv H. destruct a. bind_inv H. rename a into data.
    bind_inv H. bind_inv H. bind_inv H. injection H as <- <- <-.
    destruct data as [| | | | | |d]; try discriminate.
    cbn [py_getitem py_get] in *.
    exists r1, r2, d, a, a0.
    destruct (lookup "lat" d); [|discriminate].
    destruct (lookup "lon" d); [|discriminate].
    injection E3 as <-. injection E4 as <-.
    repeat (split; [assumption || reflexivity|]).
    destruct (lookup "city" d); now injection E5 as <-.
  - intros e H. unfold get_location_by_ip. now rewrite H.
  - intros r1 r2 data lat lon H1 H2 H3 H4 Hlat Hlon Hcity.
    unfold get_location_by_ip, lookup_location.
    rewrite H1. cbn [bind]. rewrite H2. cbn [bind]. rewrite H3, H4.
    cbn [bind py_getitem py_get]. now rewrite Hlat, Hlon, Hcity.
  - intros r1 r2 data H1 H2 H4 Hmiss.
    unfold get_location_by_ip, lookup_location.
    rewrite H1. cbn [bind]. rewrite H2. cbn [bind].
    destruct (raise_for_status r2) as [[]|]; [|reflexivity].
    rewrite H4. cbn [bind py_getitem].
    destruct Hmiss as [-> | Hlon]; [reflexivity|].
    destruct (lookup "lat" data); [|reflexivity].
    now rewrite Hlon.
Qed.

Section Run.
Context {R : Runtime}.

Lemma fetch_failure (w : world) (url : string) (e : exn) :
  request_forecast w url = Raise e ->
  fetch_weather_data w url
  = ([JsonLine true (fetch_fallback (exn_msg e))], Exited 0).
Proof.
  intros H. unfold fetch_weather_data. rewrite H. reflexivity.
Qed.

(** C1: when the forecast request raises [e] (a network error, a 4xx or
    5xx status, or a body that is not JSON), the run prints exactly the
    object with the keys "text" and "tooltip", the latter carrying the text
    of [e], and no "markup" key, and the process exits with status 0. *)
Theorem fetch_failure_prints_fallback (w : world) (e : exn) :
  request_forecast w
    (build_api_url (fst (fst (get_location_by_ip w)))
                   (snd (fst (get_location_by_ip w)))) = Raise e ->
  main w = ([JsonLine true (fetch_fallback (exn_msg e))], Exited 0) /\
  exit_status (snd (main w)) = 0 /\
  py_keys (fetch_fallback (exn_msg e)) = ["text"; "tooltip"] /\
  (forall url e',
      http_get w url = Raise e' -> request_forecast w url = Raise e') /\
  (forall url r,
      http_get w url = Ok r -> 400 <= status_code r < 600 ->
      exists e', request_forecast w url = Raise e') /\
  (forall url r e',
      http_get w url = Ok r -> raise_for_status r = Ok tt ->
      resp_json r = Raise e' -> request_forecast w url = Raise e').
Proof.
  intros H.
  assert (Hmain : main w
                  = ([JsonLine true (fetch_fallback (exn_msg e))], Exited 0)).
  { unfold main. destruct (get_location_by_ip w) as [[lat lon] name].
    cbn [fst snd] in H. rewrite (fetch_failure _ _ _ H). reflexivity. }
  split; [exact Hmain|]. split; [now rewrite Hmain|].
  split; [reflexivity|]. split; [|split].
  - intros url e' Hg. unfold request_forecast. now rewrite Hg.
  - intros url r Hg Hs. unfold request_forecast. rewrite Hg. cbn [bind].
    unfold raise_for_status.
    destruct ((400 <=? status_code r) && (status_code r <? 500)) eqn:H4;
      [cbn; eauto|].
    replace ((500 <=? status_code r) && (status_code r <? 600)) with true;
      [cbn; eauto|].
    symmetry. apply andb_true_iff. apply andb_false_iff in H4. lia.
  - intros url r e' Hg Hs Hj. unfold request_forecast.
    rewrite Hg. cbn [bind]. rewrite Hs. cbn [bind]. exact Hj.
Qed.


End Run.

(** *** The sample run, evaluated *)

Example sample_rain_block :
  build_today_rain_info (R:=example_runtime) sample_hourly sample_now
  = Ok [ "🌧️ Chance of rain today: <span foreground='#ffffff'>30%</span>";
         "⏱️ Expected rain start: 12:00 PM";
         "☔ Total predicted rain: 1.2 mm";
         "" ].
Proof. reflexivity. Qed.

Example sample_hours_left :
  build_hourly_forecast (R:=example_runtime) sample_hourly sample_now
                        (dt_date sample_now)
  = Ok [ "11:00 - <span foreground='#ea999c'>33.0°C</span> 🌦️ Slight rain";
         "12:00 - <span foreground='#85c1dc'>17.5°C</span> ⛅ Part cloudy" ].
Proof. reflexivity. Qed.

Example sample_no_hours :
  build_hourly_forecast (R:=example_runtime) sample_hourly sample_now
                        (Date 2024 5 3)
  = Ok ["Hourly forecast unavailable"].
Proof. reflexivity. Qed.

Example sample_tomorrow :
  build_tomorrow_forecast (R:=example_runtime) sample_hourly (Date 2024 5 2)
  = Ok [ "Morning   - <span foreground='#8caaee'>15.0°C</span> ☀️ Clear";
         "Midday    - <span foreground='#99d1db'>20°C</span> 🌤️ Mainly clear" ].
Proof. reflexivity. Qed.

Example sample_days :
  build_daily_forecast (R:=example_runtime) sample_daily DAYS_FORECAST
  = Ok [ "Thu ⬆️<span foreground='#81c8be'>22.5°C</span> ⬇️<span foreground='#8caaee'>11°C</span> ⛅ Part cloudy";
         "Fri ⬆️<span foreground='#ef9f76'>30.5°C</span> ⬇️<span foreground='#8caaee'>12.5°C</span> ⛈️ Thunderstorm" ].
Proof. reflexivity. Qed.

Example sample_weather_codes :
  get_weather_info (PInt 61) = Ok ("🌧️", "Slight rain") /\
  get_weather_info (PInt 7) = Ok ("❓", "Unknown") /\
  get_short_desc "Moderate rain showers" = "Moderate rain" /\
  get_short_desc "Thunderstorm" = "Thunderstorm".
Proof. repeat split. Qed.

Example sample_visible_width :
  max_line_length ["<span foreground='#99d1db'>20°C</span> ☁️"; "ab"] = 7%nat.
Proof. reflexivity. Qed.

Example sample_status_text :
  exists tooltip,
    main (R:=example_runtime) sample_world
    = ([JsonLine false
          (PDict [ ("text",
                    PStr " | ☁️ <span foreground='#99d1db'>20°C</span>");
                   ("tooltip", PStr tooltip);
                   ("markup", PStr "pango") ])],
       Done tt).
Proof. eexists. reflexivity. Qed.

Example sample_strip :
  str_strip (String.append (utf8 [9; 227; 128; 128]%nat)
               (String.append "203.0.113.7" (utf8 [32; 194; 133; 13; 10]%nat)))
  = "203.0.113.7" /\
  str_strip " 10.0.0.1  and more " = "10.0.0.1  and more" /\
  str_strip (utf8 [226; 128; 139; 32]%nat) = utf8 [226; 128; 139]%nat /\
  str_strip (utf8 [32; 10; 194; 160]%nat) = "".
Proof. repeat split. Qed.

(** *** The properties on the sample run *)

Lemma fetch_failure_prints_fallback_witness :
  request_forecast offline_world
    (build_api_url (R:=example_runtime)
       (fst (fst (get_location_by_ip offline_world)))
       (snd (fst (get_location_by_ip offline_world))))
  = Raise (Exn ConnectionError "Connection refused") /\
  main (R:=example_runtime) offline_world
  = ([JsonLine true (fetch_fallback "Connection refused")], Exited 0).
Proof.
  split; [reflexivity|].
  exact (proj1 (fetch_failure_prints_fallback (R:=example_runtime)
                  offline_world (Exn ConnectionError "Connection refused")
                  eq_refl)).
Defined.

Lemma placeholder_or_omission_witness :
  forecast_payload_ok (R:=example_runtime) sample_hourly = true /\
  utcoffset sample_now = None /\
  (exists lines,
      build_hourly_forecast (R:=example_runtime) sample_hourly sample_now
                            (Date 2024 5 3) = Ok lines) /\
  (exists lines,
      build_tomorrow_forecast (R:=example_runtime) sample_hourly
                              (Date 2024 5 2) = Ok lines).
Proof.
  split; [reflexivity|]. split; [reflexivity|].
  exact (proj1 (proj2 (proj2
           (placeholder_or_omission (R:=example_runtime) sample_hourly
              sample_daily sample_now (Date 2024 5 3) (Date 2024 5 2) 5)))
           eq_refl eq_refl).
Defined.

(** C2 as stated fails: with today as the only daily entry the multi-day
    builder returns no line at all. *)
Lemma daily_forecast_has_no_placeholder :
  exists lines,
    build_daily_forecast (R:=example_runtime) today_only_daily DAYS_FORECAST
    = Ok lines /\
    ~ (1 <= List.length lines)%nat.
Proof.
  exists []. split; [reflexivity|]. simpl. lia.
Qed.



Lemma daily_forecast_skips_today_witness :
  exists lines,
    build_daily_forecast (R:=example_runtime) sample_daily DAYS_FORECAST
    = Ok lines /\
    Z.of_nat (List.length lines) = 2.
Proof.
  eexists. split; [reflexivity|].
  destruct (proj1 (daily_forecast_skips_today (R:=example_runtime)
                     sample_daily DAYS_FORECAST) _ eq_refl)
    as (dates & max_temps & min_temps & codes & n
        & Hd & _ & _ & _ & Hn & _ & Hlen & _).
  injection Hd as <-. injection Hn as <-. exact Hlen.
Defined.

(** C5 as stated fails: on an empty daily array the builder returns zero
    lines, which is more than [min(5, 0 - 1)]. *)
Lemma daily_bound_fails_on_empty_array :
  exists lines n,
    py_len (PList []) = Ok n /\
    build_daily_forecast (R:=example_runtime) (daily_payload [] [] [] [])
                         DAYS_FORECAST = Ok lines /\
    ~ (Z.of_nat (List.length lines) <= Z.min DAYS_FORECAST (Z.of_nat n - 1)).
Proof.
  exists [], O. split; [reflexivity|]. split; [reflexivity|].
  unfold DAYS_FORECAST. simpl. lia.
Qed.

Lemma location_lookup_never_raises_witness :
  str_strip (text (Response 200 "OK" "https://checkip.amazonaws.com"
                            (String.append (utf8 [194; 160]%nat)
                               (String.append "203.0.113.7" newline))
                            (raise JSONDecodeError "Expecting value")))
  = "203.0.113.7" /\
  get_location_by_ip padded_world
  = (PFloat (97 # 2), PFloat (5 # 2), PStr "Paris").
Proof.
  split; [reflexivity|].
  destruct (proj1 (location_lookup_never_raises padded_world))
    as [H | (r1 & r2 & data & lat & lon & H1 & H2 & _ & Hj & Hlat & Hlon & H)].
  - discriminate H.
  - injection H1 as <-. injection H2 as <-. injection Hj as <-.
    injection Hlat as <-. injection Hlon as <-. exact H.
Defined.


Lemma current_hour_index_in_range_witness :
  sample_times <> [] /\
  find_current_hour_index (R:=example_runtime) (PList sample_times) sample_now
  = Ok 1 /\
  0 <= 1 < Z.of_nat (List.length sample_times).
Proof.
  split; [discriminate|]. split; [reflexivity|].
  refine (proj1 (current_hour_index_in_range (R:=example_runtime)
                   sample_times sample_now 1 _ eq_refl)).
  discriminate.
Defined.

Lemma rain_block_whole_or_absent_witness :
  rain_payload_ok (R:=example_runtime) sample_hourly = true /\
  utcoffset sample_now = None /\
  exists lines,
    build_today_rain_info (R:=example_runtime) sample_hourly sample_now
    = Ok lines.
Proof.
  split; [reflexivity|]. split; [reflexivity|].
  exact (proj1 (rain_block_whole_or_absent (R:=example_runtime)
                  sample_hourly sample_now) eq_refl eq_refl).
Defined.

(** ** Further properties *)

(** *** Text without its tags *)

Lemma str_len_app (a b : string) :
  str_len (String.append a b) = (str_len a + str_len b)%nat.
Proof.
  induction a as [|c a IH]; simpl; [reflexivity|].
  destruct (is_continuation c); simpl; now rewrite IH.
Qed.

Lemma strip_tags_scan_app (s t : string) :
  dangling s = false ->
  fst (strip_tags_scan (String.append s t))
  = String.append (fst (strip_tags_scan s)) (fst (strip_tags_scan t)) /\
  (has_special s = true ->
   snd (strip_tags_scan (String.append s t))
   = option_map (fun o => String.append o (fst (strip_tags_scan t)))
                (snd (strip_tags_scan s))).
Proof.
  induction s as [|c s IH]; intros Hd.
  - split; [reflexivity | discriminate].
  - cbn [dangling] in Hd. apply orb_false_iff in Hd. destruct Hd as [Hc Hd].
    destruct (IH Hd) as [IHout IHclosed]. clear IH.
    cbn [String.append strip_tags_scan has_special].
    destruct (strip_tags_scan (String.append s t)) as [out' closed'] eqn:Est.
    destruct (strip_tags_scan s) as [out closed] eqn:Es.
    cbn [fst snd] in *. split.
    + destruct (Ascii.eqb c "<") eqn:Hlt; cbn [fst].
      * cbn [andb] in Hc. apply negb_false_iff in Hc.
        rewrite (IHclosed Hc). destruct closed; cbn [option_map];
          [reflexivity | now rewrite IHout].
      * now rewrite IHout.
    + intros Hsp. cbn [snd].
      destruct (Ascii.eqb c ">"); [cbn; now rewrite IHout|].
      destruct (Ascii.eqb c "010"); [reflexivity|].
      cbn [orb] in Hsp. now apply IHclosed.
Qed.

Lemma strip_tags_app (s t : string) :
  dangling s = false ->
  strip_tags (String.append s t)
  = String.append (strip_tags s) (strip_tags t).
Proof. intros Hd. now apply strip_tags_scan_app. Qed.

Lemma has_special_app (s t : string) :
  has_special (String.append s t) = has_special s || has_special t.
Proof.
  induction s as [|c s IH]; simpl; [reflexivity|].
  rewrite IH. now rewrite !orb_assoc.
Qed.

Lemma dangling_app (s t : string) :
  dangling s = false -> dangling t = false ->
  dangling (String.append s t) = false.
Proof.
  intros Hs Ht. induction s as [|c s IH]; simpl; [exact Ht|].
  cbn [dangling] in Hs. apply orb_false_iff in Hs. destruct Hs as [Hc Hs].
  rewrite (IH Hs), orb_false_r.
  destruct (Ascii.eqb c "<"); [|reflexivity]. cbn [andb] in *.
  apply negb_false_iff in Hc. now rewrite has_special_app, Hc.
Qed.

Lemma strip_tags_scan_shorter (s : string) :
  (str_len (fst (strip_tags_scan s)) <= str_len s)%nat /\
  (forall o, snd (strip_tags_scan s) = Some o ->
             (str_len o <= str_len s)%nat).
Proof.
  induction s as [|c s [IHout IHclosed]]; [split; [auto | discriminate]|].
  cbn [strip_tags_scan].
  destruct (strip_tags_scan s) as [out closed]. cbn [fst snd] in *.
  assert (Hstep : forall n, (n <= str_len s)%nat ->
                            (n <= str_len (String c s))%nat).
  { intros n Hn. cbn [str_len]. destruct (is_continuation c); lia. }
  split.
  - destruct (Ascii.eqb c "<") eqn:Hlt.
    + destruct closed as [o|]; cbn [fst].
      * apply Hstep. now apply IHclosed.
      * cbn [str_len]. destruct (is_continuation c); lia.
    + cbn [fst str_len]. destruct (is_continuation c); lia.
  - intros o Ho. cbn [snd] in Ho. apply Hstep.
    destruct (Ascii.eqb c ">"); [injection Ho as <-; exact IHout|].
    destruct (Ascii.eqb c "010"); [discriminate|]. now apply IHclosed.
Qed.

Lemma strip_tags_plain (s : string) :
  (forall c, In c (list_ascii_of_string s) -> c <> "<"%char) ->
  strip_tags s = s.
Proof.
  unfold strip_tags. induction s as [|c s IH]; intros Hs; [reflexivity|].
  cbn [strip_tags_scan].
  destruct (strip_tags_scan s) as [out closed]. cbn [fst] in *.
  assert (Hc : Ascii.eqb c "<" = false).
  { apply Ascii.eqb_neq. apply Hs. now left. }
  rewrite Hc. cbn [fst]. f_equal. apply IH.
  intros c' Hc'. apply Hs. now right.
Qed.

(** X1: removing the tags of [s ++ t] is removing those of [s] and those of
    [t], as long as no ["<"] of [s] is left dangling; the visible widths add
    up, the visible text is never longer than the text, and a text without
    ["<"] is left as it is. *)
Theorem strip_tags_composes (s t : string) :
  dangling s = false ->
  strip_tags (String.append s t)
  = String.append (strip_tags s) (strip_tags t) /\
  visible_width (String.append s t)
  = (visible_width s + visible_width t)%nat /\
  (visible_width s <= str_len s)%nat /\
  ((forall c, In c (list_ascii_of_string s) -> c <> "<"%char) ->
   strip_tags s = s).
Proof.
  intros Hd. split; [now apply strip_tags_app|]. split; [|split].
  - unfold visible_width. now rewrite strip_tags_app, str_len_app.
  - exact (proj1 (strip_tags_scan_shorter s)).
  - apply strip_tags_plain.
Qed.

Lemma max_line_length_bound (lines : list string) (line : string) :
  In line lines -> (visible_width line <= max_line_length lines)%nat.
Proof.
  unfold max_line_length, visible_width. rewrite map_map.
  induction lines as [|l lines IH]; intros Hin; [contradiction|].
  cbn [map fold_right]. destruct Hin as [-> | Hin]; [lia|].
  specialize (IH Hin). lia.
Qed.

Lemma max_line_length_attained (lines : list string) :
  lines <> [] ->
  exists line, In line lines /\ max_line_length lines = visible_width line.
Proof.
  unfold max_line_length, visible_width. rewrite map_map.
  induction lines as [|l lines IH]; intros Hne; [congruence|].
  cbn [map fold_right]. destruct lines as [|l' lines].
  - exists l. split; [now left | cbn; lia].
  - destruct IH as (line & Hin & Hmax); [discriminate|].
    destruct (Nat.max_spec (str_len (strip_tags l))
                (fold_right Nat.max O
                   (map (fun x => str_len (strip_tags x)) (l' :: lines))))
      as [[_ ->] | [_ ->]].
    + exists line. split; [now right | exact Hmax].
    + exists l. split; [now left | reflexivity].
Qed.

(** X2: [max_line_length] is the greatest visible width of its lines: no
    line is wider, some line is that wide when there is one, it is 0 for no
    line, and over two lists it is the greater of the two. *)
Theorem max_line_length_is_maximum (lines : list string) :
  (forall line, In line lines ->
                (visible_width line <= max_line_length lines)%nat) /\
  (lines <> [] ->
   exists line, In line lines /\ max_line_length lines = visible_width line) /\
  (lines = [] -> max_line_length lines = O) /\
  (forall more,
      max_line_length (lines ++ more)
      = Nat.max (max_line_length lines) (max_line_length more)).
Proof.
  split; [intros line; apply max_line_length_bound|].
  split; [apply max_line_length_attained|].
  split; [now intros ->|].
  intros more. unfold max_line_length.
  induction lines as [|l lines IH]; [reflexivity|].
  cbn [app map fold_right]. rewrite IH. lia.
Qed.

(** *** The width of a rendered section *)

Lemma append_empty_r (s : string) : String.append s "" = s.
Proof. induction s as [|c s IH]; simpl; [reflexivity | now rewrite IH]. Qed.

(** Wrapping a text in a tag that closes leaves its visible text. *)
Lemma strip_tags_wrapped (open_tag close_tag body : string) :
  dangling open_tag = false -> strip_tags open_tag = "" ->
  strip_tags close_tag = "" ->
  dangling body = false ->
  strip_tags (String.append open_tag (String.append body close_tag))
  = strip_tags body.
Proof.
  intros Ho Hso Hsc Hb.
  rewrite (strip_tags_app open_tag _ Ho), Hso. cbn [String.append].
  now rewrite (strip_tags_app body _ Hb), Hsc, append_empty_r.
Qed.

Lemma rule_plain (n : nat) :
  dangling (str_repeat "─" n) = false /\
  strip_tags (str_repeat "─" n) = str_repeat "─" n /\
  str_len (str_repeat "─" n) = n.
Proof.
  induction n as [|n (Hd & Hs & Hl)]; [repeat split|].
  cbn [str_repeat]. split; [|split].
  - now apply dangling_app.
  - rewrite strip_tags_app by reflexivity. now rewrite Hs.
  - rewrite str_len_app, Hl. reflexivity.
Qed.

Lemma render_section_stripped (lines : list string) (heading : string)
      (max_len : nat) :
  dangling heading = false ->
  Forall (fun line => dangling line = false) lines ->
  map strip_tags (render_section lines heading max_len)
  = [strip_tags heading; str_repeat "─" max_len]
      ++ map strip_tags lines ++ [""].
Proof.
  intros Hh Hlines. unfold render_section.
  rewrite !map_app, map_map. cbn [map app]. f_equal; [|f_equal].
  - change (fstr ["<span foreground='"; FG_HEADER; "' font='9'>"; heading;
                  "</span>"])
      with (String.append "<span foreground='#f4b8e4' font='9'>"
              (String.append heading "</span>")).
    now apply strip_tags_wrapped.
  - change (fstr ["<span foreground='#ffffff'>"; str_repeat "─" max_len;
                  "</span>"])
      with (String.append "<span foreground='#ffffff'>"
              (String.append (str_repeat "─" max_len) "</span>")).
    destruct (rule_plain max_len) as (Hd & Hs & _).
    rewrite strip_tags_wrapped by (reflexivity || assumption).
    exact Hs.
  - f_equal. apply map_ext_in. intros line Hin.
    change (fstr ["<span foreground='"; FG_TEXT; "' font='9'>"; line;
                  "</span>"])
      with (String.append "<span foreground='#ffffff' font='9'>"
              (String.append line "</span>")).
    apply strip_tags_wrapped; try reflexivity.
    rewrite Forall_forall in Hlines. now apply Hlines.
Qed.

(** X3: the visible text of a rendered section is the heading, a rule of
    [max_len] glyphs, the visible text of each line and an empty line; the
    rule is exactly [max_len] wide, and no rendered line is wider than the
    rule when [max_len] is at least the width of the heading and the
    lines. *)
Theorem render_section_fits_rule (lines : list string) (heading : string)
        (max_len : nat) :
  dangling heading = false ->
  Forall (fun line => dangling line = false) lines ->
  map strip_tags (render_section lines heading max_len)
  = [strip_tags heading; str_repeat "─" max_len]
      ++ map strip_tags lines ++ [""] /\
  visible_width (nth 1 (render_section lines heading max_len) "") = max_len /\
  ((max_line_length (heading :: lines) <= max_len)%nat ->
   Forall (fun rendered => (visible_width rendered <= max_len)%nat)
          (render_section lines heading max_len)).
Proof.
  intros Hh Hlines.
  pose proof (render_section_stripped lines heading max_len Hh Hlines) as Hs.
  split; [exact Hs|]. split.
  - unfold visible_width.
    change (strip_tags (nth 1 (render_section lines heading max_len) ""))
      with (nth 1 (map strip_tags (render_section lines heading max_len))
                (strip_tags "")).
    rewrite Hs. cbn [nth app]. apply rule_plain.
  - intros Hmax. apply Forall_forall. intros rendered Hin.
    unfold visible_width.
    assert (Hin' : In (strip_tags rendered)
                      (map strip_tags (render_section lines heading max_len)))
      by now apply in_map.
    rewrite Hs in Hin'. cbn [app] in Hin'.
    destruct Hin' as [<- | [<- | Hin']].
    + pose proof (max_line_length_bound (heading :: lines) heading
                    (or_introl eq_refl)). unfold visible_width in *. lia.
    + destruct (rule_plain max_len) as (_ & _ & ->). lia.
    + apply in_app_or in Hin'. destruct Hin' as [Hin' | [<- | []]].
      * apply in_map_iff in Hin'. destruct Hin' as (line & <- & Hline).
        pose proof (max_line_length_bound (heading :: lines) line
                      (or_intror Hline)). unfold visible_width in *. lia.
      * cbn. lia.
Qed.

(** *** The tables *)

Lemma assoc_Z_In {V} (k : Z) (v : V) (table : list (Z * V)) :
  NoDup (map fst table) -> In (k, v) table -> assoc_Z k table = Some v.
Proof.
  induction table as [|[k' v'] table IH]; intros Hnd Hin; [contradiction|].
  cbn [map fst] in Hnd. inversion Hnd as [|? ? Hk' Hnd']; subst.
  cbn [assoc_Z]. destruct Hin as [[= -> ->] | Hin].
  - now rewrite Z.eqb_refl.
  - destruct (k =? k') eqn:Hk; [|now apply IH].
    apply Z.eqb_eq in Hk. subst k'. exfalso. apply Hk'.
    apply in_map_iff. now exists (k, v).
Qed.

Lemma assoc_Z_absent {V} (k : Z) (table : list (Z * V)) :
  ~ In k (map fst table) -> assoc_Z k table = None.
Proof.
  induction table as [|[k' v'] table IH]; intros Hk; [reflexivity|].
  cbn [assoc_Z]. destruct (k =? k') eqn:E.
  - apply Z.eqb_eq in E. subst. exfalso. apply Hk. now left.
  - apply IH. intros C. apply Hk. now right.
Qed.

Lemma assoc_Z_found {V} (k : Z) (v : V) (table : list (Z * V)) :
  assoc_Z k table = Some v -> In (k, v) table.
Proof.
  induction table as [|[k' v'] table IH]; [discriminate|].
  cbn [assoc_Z]. destruct (k =? k') eqn:E.
  - apply Z.eqb_eq in E. intros [= ->]. subst. now left.
  - intros H. right. now apply IH.
Qed.

Lemma assoc_str_found {V} (k : string) (v : V) (table : list (string * V)) :
  assoc_str k table = Some v -> In (k, v) table.
Proof.
  induction table as [|[k' v'] table IH]; [discriminate|].
  cbn [assoc_str]. destruct (String.eqb k k') eqn:E.
  - apply String.eqb_eq in E. intros [= ->]. subst. now left.
  - intros H. right. now apply IH.
Qed.

Lemma assoc_str_absent {V} (k : string) (table : list (string * V)) :
  ~ In k (map fst table) -> assoc_str k table = None.
Proof.
  induction table as [|[k' v'] table IH]; intros Hk; [reflexivity|].
  cbn [assoc_str]. destruct (String.eqb k k') eqn:E.
  - apply String.eqb_eq in E. subst. exfalso. apply Hk. now left.
  - apply IH. intros C. apply Hk. now right.
Qed.

Lemma WEATHER_MAP_keys_distinct : NoDup (map fst WEATHER_MAP).
Proof.
  unfold WEATHER_MAP. cbn [map fst].
  repeat (constructor; [cbn [In]; intuition discriminate|]). constructor.
Qed.

Lemma get_weather_info_listed (code : pyval) (info : string * string) :
  get_weather_info code = Ok info ->
  In info (map snd WEATHER_MAP) \/ info = unknown_weather.
Proof.
  unfold get_weather_info. intros H. bind_inv H.
  destruct a as [z|]; [|injection H as <-; now right].
  destruct (assoc_Z z WEATHER_MAP) as [i|] eqn:Hz; injection H as <-.
  - left. apply assoc_Z_found in Hz. apply in_map_iff. now exists (z, i).
  - now right.
Qed.

(** X4: [get_weather_info] returns the pair listed for a code of the table
    (its keys are distinct), the pair ("❓", "Unknown") for any other int,
    for a str and for None; a float or a bool equal to an int is looked up
    as that int; a list or a dict raises TypeError, being unhashable. *)
Theorem get_weather_info_table :
  (forall code info,
      In (code, info) WEATHER_MAP -> get_weather_info (PInt code) = Ok info) /\
  (forall code,
      ~ In code (map fst WEATHER_MAP) ->
      get_weather_info (PInt code) = Ok unknown_weather) /\
  (forall s, get_weather_info (PStr s) = Ok unknown_weather) /\
  get_weather_info PNone = Ok unknown_weather /\
  (forall z, get_weather_info (PFloat (inject_Z z))
             = get_weather_info (PInt z)) /\
  (forall b, get_weather_info (PBool b)
             = get_weather_info (PInt (if b then 1 else 0))) /\
  (forall l, exists e, get_weather_info (PList l) = Raise e /\
                       exn_kind_of e = TypeError) /\
  (forall d, exists e, get_weather_info (PDict d) = Raise e /\
                       exn_kind_of e = TypeError).
Proof.
  split; [|split; [|repeat split]].
  - intros code info Hin. unfold get_weather_info. cbn [int_key bind].
    now rewrite (assoc_Z_In code info WEATHER_MAP WEATHER_MAP_keys_distinct).
  - intros code Hout. unfold get_weather_info. cbn [int_key bind].
    now rewrite (assoc_Z_absent code WEATHER_MAP Hout).
  - intros z. unfold get_weather_info. cbn [int_key inject_Z Qnum Qden].
    now rewrite Z.mod_1_r, Z.div_1_r.
  - intros l. eexists. split; reflexivity.
  - intros d. eexists. split; reflexivity.
Qed.

Lemma short_desc_table_shortens :
  Forall (fun kv => (str_len (snd kv) <= str_len (fst kv))%nat)
         SHORT_DESC_MAP.
Proof.
  unfold SHORT_DESC_MAP. repeat (constructor; [cbn; lia|]). constructor.
Qed.

Lemma weather_short_desc_narrow :
  Forall (fun info => (str_len (get_short_desc (snd info)) <= 13)%nat)
         (unknown_weather :: map snd WEATHER_MAP).
Proof.
  unfold WEATHER_MAP, unknown_weather. cbn [map snd].
  repeat (constructor; [vm_compute; lia|]). constructor.
Qed.

(** X5: [get_short_desc] leaves a description outside its table as it is
    and never returns a longer text; the short description of whatever
    [get_weather_info] returns is at most 13 characters wide.  Shortening is
    not idempotent: "Moderate rain showers" gives "Moderate rain", itself a
    key of the table. *)
Theorem get_short_desc_shortens :
  (forall desc,
      ~ In desc (map fst SHORT_DESC_MAP) -> get_short_desc desc = desc) /\
  (forall desc, (str_len (get_short_desc desc) <= str_len desc)%nat) /\
  (forall code info,
      get_weather_info code = Ok info ->
      (str_len (get_short_desc (snd info)) <= 13)%nat) /\
  get_short_desc (get_short_desc "Moderate rain showers")
  <> get_short_desc "Moderate rain showers".
Proof.
  split; [|split; [|split]].
  - intros desc Hout. unfold get_short_desc.
    now rewrite (assoc_str_absent desc SHORT_DESC_MAP Hout).
  - intros desc. unfold get_short_desc.
    destruct (assoc_str desc SHORT_DESC_MAP) as [short|] eqn:H; [|lia].
    apply assoc_str_found in H.
    pose proof short_desc_table_shortens as Hall.
    rewrite Forall_forall in Hall. exact (Hall _ H).
  - intros code info H.
    pose proof weather_short_desc_narrow as Hall.
    rewrite Forall_forall in Hall. apply Hall.
    destruct (get_weather_info_listed code info H) as [Hin | ->];
      [now right | now left].
  - discriminate.
Qed.

Lemma first_index_find {A} (f : A -> bool) (l : list A) (d : A) :
  match find f l with
  | Some x => nth (first_index f l) l d = x /\
              (first_index f l < List.length l)%nat
  | None => first_index f l = List.length l
  end.
Proof.
  induction l as [|x l IH]; cbn [find first_index]; [reflexivity|].
  destruct (f x); cbn [nth List.length]; [split; [reflexivity | lia]|].
  destruct (find f l); [split; [apply IH | apply -> Nat.succ_lt_mono; apply IH]|].
  now rewrite IH.
Qed.

Lemma first_index_mono {A} (f g : A -> bool) (l : list A) :
  (forall x, g x = true -> f x = true) ->
  (first_index f l <= first_index g l)%nat.
Proof.
  intros Himp. induction l as [|x l IH]; cbn [first_index]; [lia|].
  destruct (g x) eqn:Hg; [now rewrite (Himp x Hg)|].
  destruct (f x); lia.
Qed.

(** X6: the colours of [TEMP_COLORS] are distinct, [temp_to_color] returns
    the one of rank [bucket q] for a number of value [q], the rank never
    goes down when the temperature goes up, and a value that is not a number
    (a null of the payload) raises TypeError. *)
Theorem temp_to_color_monotone :
  NoDup (map snd TEMP_COLORS) /\
  (forall t q,
      num_value t = Some q ->
      temp_to_color t = Ok (nth (bucket q) (map snd TEMP_COLORS) "") /\
      (bucket q < List.length TEMP_COLORS)%nat) /\
  (forall q1 q2, (q1 <= q2)%Q -> (bucket q1 <= bucket q2)%nat) /\
  (forall t,
      num_value t = None ->
      exists e, temp_to_color t = Raise e /\ exn_kind_of e = TypeError).
Proof.
  split; [|split; [|split]].
  - unfold TEMP_COLORS. cbn [map snd].
    repeat (constructor; [cbn [In]; intuition discriminate|]). constructor.
  - intros t q Hq. unfold temp_to_color, bucket.
    rewrite (temp_to_color_scan_num t q _ Hq). cbn [bind].
    set (f := fun p : Z * string => Qle_bool q (inject_Z (fst p))).
    pose proof (first_index_find f TEMP_COLORS (0, "")) as Hfi.
    change (List.length TEMP_COLORS - 1)%nat with 8%nat.
    change (List.length TEMP_COLORS) with 9%nat in *.
    destruct (find f TEMP_COLORS) as [p|]; cbn [option_map].
    + destruct Hfi as [Hnth Hlt]. split; [|lia].
      rewrite Nat.min_l by lia.
      change "" with (snd (0, "")). now rewrite map_nth, Hnth.
    + rewrite Hfi. split; [reflexivity | cbn; lia].
  - intros q1 q2 Hle. unfold bucket.
    apply Nat.min_le_compat_r. apply first_index_mono.
    intros p Hp. apply Qle_bool_iff. apply Qle_bool_iff in Hp.
    eapply Qle_trans; eauto.
  - intros t Ht. unfold temp_to_color, TEMP_COLORS.
    cbn [temp_to_color_scan]. unfold py_le. rewrite Ht.
    eexists. split; reflexivity.
Qed.

(** *** Tomorrow, and the hours of another day *)

Section FurtherForecast.
Context {R : Runtime}.


Lemma parses_ok (v : pyval) :
  parses v = true -> exists dt, py_fromisoformat v = Ok dt.
Proof.
  unfold parses. destruct (py_fromisoformat v); [eauto | discriminate].
Qed.




End FurtherForecast.

(** *** What the rain block shows *)

Section RainFigures.
Context {R : Runtime}.










End RainFigures.

(** *** The whole run *)

Lemma pbind_ret {A B} (a : A) (k : A -> prog B) : pbind (ret a) k = k a.
Proof. unfold pbind, ret. destruct (k a). reflexivity. Qed.

Lemma pbind_lift_ok {A B} (a : A) (k : A -> prog B) :
  pbind (lift (Ok a)) k = k a.
Proof. apply pbind_ret. Qed.

Lemma pbind_lift_raise {A B} (e : exn) (k : A -> prog B) :
  pbind (lift (Raise e)) k = ([], Uncaught e).
Proof. reflexivity. Qed.

Section WholeRun.
Context {R : Runtime}.

Lemma main_after_fetch (w : world) (lat lon name data : pyval) :
  get_location_by_ip w = (lat, lon, name) ->
  request_forecast w (build_api_url lat lon) = Ok data ->
  main w = render_forecast name data (clock w).
Proof.
  intros Hl Hd. unfold main. rewrite Hl. unfold fetch_weather_data.
  rewrite Hd.
  exact (pbind_ret data (fun d => render_forecast name d (clock w))).
Qed.

Lemma main_fetch_failed (w : world) (lat lon name : pyval) (e : exn) :
  get_location_by_ip w = (lat, lon, name) ->
  request_forecast w (build_api_url lat lon) = Raise e ->
  main w = ([JsonLine true (fetch_fallback (exn_msg e))], Exited 0).
Proof.
  intros Hl Hd. unfold main. rewrite Hl. unfold fetch_weather_data.
  rewrite Hd. reflexivity.
Qed.

(** How [render_forecast] can end. *)
Lemma render_forecast_ends (name data : pyval) (now : datetime) :
  match snd (render_forecast name data now) with
  | Done _ =>
      exists text tooltip,
        fst (render_forecast name data now)
        = [JsonLine false (widget text tooltip)]
  | Exited code =>
      code = 0 /\
      fst (render_forecast name data now) = [JsonLine true parse_fallback]
  | Uncaught _ => fst (render_forecast name data now) = []
  end.
Proof.
  unfold render_forecast.
  destruct (date_next (dt_date now)) as [tomorrow|];
    [rewrite pbind_lift_ok | reflexivity].
  destruct (extract_current_weather data now) as [weather|];
    [rewrite pbind_ret | cbn; auto].
  repeat match goal with
         | |- context [pbind (lift ?r) _] =>
             destruct r; [rewrite pbind_lift_ok | reflexivity]
         end.
  cbn [print_json fst snd]. unfold widget. eexists _, _. reflexivity.
Qed.

(** X11: whatever the network answers, [main] prints at most one object: a
    run that ends normally printed the object with the keys "text",
    "tooltip" and "markup" (which is "pango"), without ASCII escaping; a run
    that exits does so with status 0 after printing an "N/A" object with
    the keys "text" and "tooltip"; a run ended by an exception printed
    nothing. *)
Theorem main_prints_one_object (w : world) :
  match snd (main w) with
  | Done _ =>
      exists text tooltip, fst (main w) = [JsonLine false (widget text tooltip)]
  | Exited code =>
      code = 0 /\
      exists message,
        fst (main w)
        = [JsonLine true (PDict [ ("text", PStr "N/A");
                                  ("tooltip", PStr message) ])]
  | Uncaught _ => fst (main w) = []
  end.
Proof.
  destruct (get_location_by_ip w) as [[lat lon] name] eqn:Hl.
  destruct (request_forecast w (build_api_url lat lon)) as [data|e] eqn:Hd.
  - rewrite (main_after_fetch w lat lon name data Hl Hd).
    pose proof (render_forecast_ends name data (clock w)) as H.
    destruct (snd (render_forecast name data (clock w))); auto.
    destruct H as (-> & ->). split; [reflexivity|]. eexists. reflexivity.
  - rewrite (main_fetch_failed w lat lon name e Hl Hd). cbn [fst snd].
    split; [reflexivity|]. eexists. reflexivity.
Qed.

(** X12: when the forecast is fetched but [extract_current_weather] raises,
    [main] prints the fallback object "Failed to parse current weather" and
    exits with status 0. *)
Theorem parse_failure_prints_fallback (w : world) (lat lon name data : pyval)
        (tomorrow : date) (e : exn) :
  get_location_by_ip w = (lat, lon, name) ->
  request_forecast w (build_api_url lat lon) = Ok data ->
  date_next (dt_date (clock w)) = Ok tomorrow ->
  extract_current_weather data (clock w) = Raise e ->
  main w = ([JsonLine true parse_fallback], Exited 0) /\
  exit_status (snd (main w)) = 0.
Proof.
  intros Hl Hd Ht He.
  assert (H : main w = ([JsonLine true parse_fallback], Exited 0)).
  { rewrite (main_after_fetch w lat lon name data Hl Hd).
    unfold render_forecast. rewrite Ht, pbind_lift_ok, He. reflexivity. }
  split; [exact H | now rewrite H].
Qed.

(** X13: an exception raised after the extraction is not caught: with a
    current temperature that is not a number, or with a payload that has no
    "daily" key, [main] prints nothing and the process ends with status
    1. *)
Theorem uncaught_after_extraction (w : world) (lat lon name data : pyval)
        (tomorrow : date) (weather : weather) (info : string * string) :
  get_location_by_ip w = (lat, lon, name) ->
  request_forecast w (build_api_url lat lon) = Ok data ->
  date_next (dt_date (clock w)) = Ok tomorrow ->
  extract_current_weather data (clock w) = Ok weather ->
  get_weather_info (w_code weather) = Ok info ->
  (num_value (w_temp weather) = None ->
   exists e,
     main w = ([], Uncaught e) /\ exn_kind_of e = TypeError /\
     exit_status (snd (main w)) = 1) /\
  (num_value (w_temp weather) <> None ->
   forall e,
     py_getitem data "daily" = Raise e ->
     main w = ([], Uncaught e) /\ exit_status (snd (main w)) = 1) /\
  (forall d,
      data = PDict d -> lookup "daily" d = None ->
      py_getitem data "daily" = Raise (Exn KeyError "'daily'")).
Proof.
  intros Hl Hd Ht Hw Hinfo.
  rewrite (main_after_fetch w lat lon name data Hl Hd).
  unfold render_forecast.
  rewrite Ht, pbind_lift_ok, Hw, pbind_ret, Hinfo, pbind_lift_ok.
  split; [|split].
  - intros Htemp.
    unfold temp_to_color, TEMP_COLORS. cbn [temp_to_color_scan].
    unfold py_le. rewrite Htemp. cbn.
    eexists. repeat split.
  - intros Htemp e Hdaily.
    destruct (temp_to_color_number (w_temp weather)) as (color & ->).
    { unfold is_number. now destruct (num_value (w_temp weather)). }
    rewrite pbind_lift_ok.
    assert (Hh : exists hourly, py_getitem data "hourly" = Ok hourly).
    { unfold extract_current_weather in Hw. bind_inv Hw. bind_inv Hw. eauto. }
    destruct Hh as (hourly & ->). rewrite pbind_lift_ok, Hdaily.
    split; reflexivity.
  - intros d -> Hnone. cbn [py_getitem]. now rewrite Hnone.
Qed.

End WholeRun.

Section Extraction.
Context {R : Runtime}.

Lemma seq_index_repeat_inv {A} (x v : A) (n : nat) (i : Z) :
  seq_index (repeat x n) i = Ok v -> v = x.
Proof.
  unfold seq_index. destruct (_ && _); [|discriminate].
  destruct (nth_error _ _) eqn:Hn; [|discriminate].
  intros [= <-]. apply nth_error_In in Hn. now apply repeat_spec in Hn.
Qed.

(** What [hourly.get(key, [default] * n)[i]] evaluates to. *)
Lemma field_or_default (h : list (string * pyval)) (key : string)
      (default v : pyval) (n : nat) (i : Z) :
  (arr <- py_get (PDict h) key (py_list_repeat default n) ;; py_index arr i)
  = Ok v ->
  (lookup key h = None -> v = default) /\
  (forall arr, lookup key h = Some arr -> py_index arr i = Ok v).
Proof.
  cbn [py_get]. destruct (lookup key h) as [arr|]; cbn [bind]; intros H.
  - split; [discriminate | now intros ? [= <-]].
  - split; [|discriminate]. intros _. cbn [py_index py_list_repeat] in H.
    now apply seq_index_repeat_inv in H.
Qed.

(** X10: what [extract_current_weather] returns: the temperature and the
    code of [current_weather], and for each of the three hourly fields the
    item of its array at the index of the current hour, or, when the array
    is absent, the current temperature for [feels_like] and 0 for the
    humidity and the wind speed. *)
Theorem extract_current_weather_fields (data : pyval) (now : datetime)
        (h : list (string * pyval)) (w : weather) :
  py_getitem data "hourly" = Ok (PDict h) ->
  extract_current_weather data now = Ok w ->
  exists current times i,
    py_getitem data "current_weather" = Ok current /\
    py_getitem current "temperature" = Ok (w_temp w) /\
    py_getitem current "weathercode" = Ok (w_code w) /\
    lookup "time" h = Some times /\
    find_current_hour_index times now = Ok i /\
    (lookup "apparent_temperature" h = None -> w_feels_like w = w_temp w) /\
    (lookup "relativehumidity_2m" h = None -> w_humidity w = PInt 0) /\
    (lookup "windspeed_10m" h = None -> w_windspeed w = PInt 0) /\
    (forall arr, lookup "apparent_temperature" h = Some arr ->
                 py_index arr i = Ok (w_feels_like w)) /\
    (forall arr, lookup "relativehumidity_2m" h = Some arr ->
                 py_index arr i = Ok (w_humidity w)) /\
    (forall arr, lookup "windspeed_10m" h = Some arr ->
                 py_index arr i = Ok (w_windspeed w)).
Proof.
  intros Hh H. unfold extract_current_weather in H.
  bind_inv H. rename a into current, E into Hc.
  rewrite Hh in H. cbn [bind] in H.
  bind_inv H. rename a into times, E into Ht.
  bind_inv H. rename a into i, E into Hi.
  bind_inv H. rename a into temp, E into Htemp.
  bind_inv H. rename a into code, E into Hcode.
  bind_inv H. rename a into temp', E into Htemp'.
  bind_inv H. rename a into n1, E into Hn1.
  bind_inv H. rename a into feels_arr, E into Hfa.
  bind_inv H. rename a into feels, E into Hf.
  bind_inv H. rename a into n2, E into Hn2.
  bind_inv H. rename a into hum_arr, E into Hha.
  bind_inv H. rename a into hum, E into Hhum.
  bind_inv H. rename a into n3, E into Hn3.
  bind_inv H. rename a into wind_arr, E into Hwa.
  bind_inv H. rename a into wind, E into Hwind.
  injection H as <-.
  cbn [w_temp w_code w_feels_like w_humidity w_windspeed].
  rewrite Htemp in Htemp'. injection Htemp' as <-.
  assert (Hf' : (arr <- py_get (PDict h) "apparent_temperature"
                          (py_list_repeat temp n1) ;; py_index arr i)
                = Ok feels) by (rewrite Hfa; exact Hf).
  assert (Hhum' : (arr <- py_get (PDict h) "relativehumidity_2m"
                            (py_list_repeat (PInt 0) n2) ;; py_index arr i)
                  = Ok hum) by (rewrite Hha; exact Hhum).
  assert (Hwind' : (arr <- py_get (PDict h) "windspeed_10m"
                             (py_list_repeat (PInt 0) n3) ;; py_index arr i)
                   = Ok wind) by (rewrite Hwa; exact Hwind).
  cbn [py_getitem] in Ht. exists current, times, i.
  destruct (lookup "time" h) as [times'|] eqn:Hl; [|discriminate].
  injection Ht as ->.
  destruct (field_or_default _ _ _ _ _ _ Hf') as (Hf1 & Hf2).
  destruct (field_or_default _ _ _ _ _ _ Hhum') as (Hh1 & Hh2).
  destruct (field_or_default _ _ _ _ _ _ Hwind') as (Hw1 & Hw2).
  repeat split; auto.
Qed.

(** X14: with an empty array of hourly timestamps the index of the current
    hour is 0, and [extract_current_weather] raises as soon as one of the
    three hourly fields is absent, its default array being empty; the
    exception is an IndexError when that field is the first one read. *)
Theorem extract_needs_a_timestamp (data current : pyval) (now : datetime)
        (h : list (string * pyval)) (temp code : pyval) (key : string) :
  py_getitem data "current_weather" = Ok current ->
  py_getitem current "temperature" = Ok temp ->
  py_getitem current "weathercode" = Ok code ->
  py_getitem data "hourly" = Ok (PDict h) ->
  lookup "time" h = Some (PList []) ->
  In key ["apparent_temperature"; "relativehumidity_2m"; "windspeed_10m"] ->
  lookup key h = None ->
  find_current_hour_index (PList []) now = Ok 0 /\
  (exists e, extract_current_weather data now = Raise e) /\
  (key = "apparent_temperature" ->
   exists e,
     extract_current_weather data now = Raise e /\
     exn_kind_of e = IndexError).
Proof.
  intros Hc Htemp Hcode Hh Htime Hkey Hnone.
  split; [reflexivity|].
  unfold extract_current_weather.
  rewrite Hc, Hh. cbn [bind py_getitem]. rewrite Htime. cbn [bind].
  change (find_current_hour_index (PList []) now) with (@Ok Z 0).
  cbn [bind]. cbn [py_getitem] in Htemp, Hcode |- *.
  rewrite Htemp, Hcode. cbn [bind py_len List.length py_list_repeat repeat].
  cbn [py_get]. split.
  - destruct Hkey as [<- | [<- | [<- | []]]].
    + rewrite Hnone. cbn. eauto.
    + destruct (lookup "apparent_temperature" h) as [a|]; cbn [bind];
        [destruct (py_index a 0); cbn [bind]; [|eauto]|cbn; eauto].
      rewrite Hnone. cbn. eauto.
    + destruct (lookup "apparent_temperature" h) as [a|]; cbn [bind];
        [destruct (py_index a 0); cbn [bind]; [|eauto]|cbn; eauto].
      destruct (lookup "relativehumidity_2m" h) as [b|]; cbn [bind];
        [destruct (py_index b 0); cbn [bind]; [|eauto]|cbn; eauto].
      rewrite Hnone. cbn. eauto.
  - intros ->. rewrite Hnone. cbn. eexists. split; reflexivity.
Qed.

End Extraction.

Section Anatomy.
Context {R : Runtime}.

Lemma build_current_section_length (weather : weather) (name : pyval)
      (lines : list string) :
  build_current_section weather name = Ok lines -> List.length lines = 4%nat.
Proof.
  unfold build_current_section. intros H.
  bind_inv H. destruct a as [icon desc]. bind_inv H. bind_inv H.
  now injection H as <-.
Qed.

(** X15: a run that ends normally went through every stage, and printed
    the status text made of the icon and the coloured temperature, and the
    tooltip of the four sections in order: current (four lines), today (the
    rain block then the hours, never empty), tomorrow (never empty) and the
    coming days, ruled at the greatest visible width of their lines and
    headings. *)
Theorem main_done_anatomy (w : world) :
  snd (main w) = Done tt ->
  exists lat lon name data tomorrow weather info color hourly daily,
  exists current rain hours next days,
    get_location_by_ip w = (lat, lon, name) /\
    request_forecast w (build_api_url lat lon) = Ok data /\
    date_next (dt_date (clock w)) = Ok tomorrow /\
    extract_current_weather data (clock w) = Ok weather /\
    get_weather_info (w_code weather) = Ok info /\
    temp_to_color (w_temp weather) = Ok color /\
    py_getitem data "hourly" = Ok hourly /\
    py_getitem data "daily" = Ok daily /\
    build_current_section weather name = Ok current /\
    build_today_rain_info hourly (clock w) = Ok rain /\
    build_hourly_forecast hourly (clock w) (dt_date (clock w)) = Ok hours /\
    build_tomorrow_forecast hourly tomorrow = Ok next /\
    build_daily_forecast daily DAYS_FORECAST = Ok days /\
    fst (main w)
    = [JsonLine false
         (widget
            (fstr [" | "; fst info; " <span foreground='"; color; "'>";
                   py_str (w_temp weather); "°C</span>"])
            (build_tooltip
               (combine [current; rain ++ hours; next; days]
                        (headings (py_str name)))
               (max_line_length
                  ((current ++ (rain ++ hours) ++ next ++ days)
                     ++ headings (py_str name)))))] /\
    List.length current = 4%nat /\ hours <> [] /\ next <> [].
Proof.
  intros Hdone.
  destruct (get_location_by_ip w) as [[lat lon] name] eqn:Hl.
  destruct (request_forecast w (build_api_url lat lon)) as [data|e] eqn:Hd;
    [|rewrite (main_fetch_failed w lat lon name e Hl Hd) in Hdone;
      discriminate].
  rewrite (main_after_fetch w lat lon name data Hl Hd) in *.
  unfold render_forecast in *.
  destruct (date_next (dt_date (clock w))) as [tomorrow|] eqn:Ht;
    [rewrite pbind_lift_ok in * | discriminate].
  destruct (extract_current_weather data (clock w)) as [weather|] eqn:Hw;
    [rewrite pbind_ret in * | discriminate].
  destruct (get_weather_info (w_code weather)) as [info|] eqn:Hinfo;
    [rewrite pbind_lift_ok in * | discriminate].
  destruct (temp_to_color (w_temp weather)) as [color|] eqn:Hcolor;
    [rewrite pbind_lift_ok in * | discriminate].
  destruct (py_getitem data "hourly") as [hourly|] eqn:Hh;
    [rewrite pbind_lift_ok in * | discriminate].
  destruct (py_getitem data "daily") as [daily|] eqn:Hdy;
    [rewrite pbind_lift_ok in * | discriminate].
  destruct (build_current_section weather name) as [current|] eqn:Hcur;
    [rewrite pbind_lift_ok in * | discriminate].
  destruct (build_today_rain_info hourly (clock w)) as [rain|] eqn:Hrain;
    [rewrite pbind_lift_ok in * | discriminate].
  destruct (build_hourly_forecast hourly (clock w) (dt_date (clock w)))
    as [hours|] eqn:Hhours; [rewrite pbind_lift_ok in * | discriminate].
  destruct (build_tomorrow_forecast hourly tomorrow) as [next|] eqn:Hnext;
    [rewrite pbind_lift_ok in * | discriminate].
  destruct (build_daily_forecast daily DAYS_FORECAST) as [days|] eqn:Hdays;
    [rewrite pbind_lift_ok in * | discriminate].
  exists lat, lon, name, data, tomorrow, weather, info, color, hourly, daily.
  exists current, rain, hours, next, days.
  repeat (split; [assumption || reflexivity|]).
  split; [|split].
  - now apply build_current_section_length in Hcur.
  - now apply build_hourly_forecast_nonempty in Hhours.
  - now apply build_tomorrow_forecast_nonempty in Hnext.
Qed.

(** X16: a failed location lookup does not end the run: [main] goes on to
    fetch the forecast of latitude 0.0 and longitude 0.0 and renders it
    under the name "Your Location". *)
Theorem location_failure_degrades (w : world) (e : exn) :
  lookup_location w = Raise e ->
  main w
  = (data <~ fetch_weather_data w (build_api_url (PFloat 0) (PFloat 0)) ;;
     render_forecast (PStr "Your Location") data (clock w)) /\
  (forall data,
      request_forecast w (build_api_url (PFloat 0) (PFloat 0)) = Ok data ->
      main w = render_forecast (PStr "Your Location") data (clock w)).
Proof.
  intros H.
  assert (Hl : get_location_by_ip w
               = (PFloat 0, PFloat 0, PStr "Your Location")).
  { unfold get_location_by_ip. now rewrite H. }
  split.
  - unfold main. now rewrite Hl.
  - intros data Hd. now apply (main_after_fetch w _ _ _ data Hl).
Qed.

Lemma py_range_cons (lo hi : Z) :
  lo < hi -> py_range lo hi = lo :: py_range (lo + 1) hi.
Proof.
  intros Hlt. unfold py_range.
  replace (Z.to_nat (hi - lo)) with (S (Z.to_nat (hi - (lo + 1)))) by lia.
  cbn [seq map]. f_equal; [lia|].
  rewrite <- seq_shift, map_map. apply map_ext. intros k. lia.
Qed.

Lemma seq_index_out_of_range {A} (l : list A) (i : Z) :
  Z.of_nat (List.length l) <= i ->
  exists e, seq_index l i = Raise e /\ exn_kind_of e = IndexError.
Proof.
  intros Hi. unfold seq_index.
  destruct (i <? 0) eqn:Hneg; [lia|].
  replace ((0 <=? i) && (i <? Z.of_nat (List.length l))) with false
    by (symmetry; apply andb_false_iff; lia).
  eexists. split; reflexivity.
Qed.

(** X17: [build_daily_forecast] trusts the alignment of the daily arrays:
    with at least one day asked for, a second date that parses and a
    weathercode array of at most one item, it raises IndexError. *)
Theorem daily_forecast_trusts_alignment
        (dates maxs mins codes : list pyval) (days : Z) (d1 : pyval) :
  1 <= days ->
  nth_error dates 1 = Some d1 ->
  parses d1 = true ->
  (List.length codes <= 1)%nat ->
  exists e,
    build_daily_forecast (daily_payload dates maxs mins codes) days = Raise e /\
    exn_kind_of e = IndexError.
Proof.
  intros Hdays Hd1 Hparse Hcodes.
  unfold build_daily_forecast, daily_payload.
  cbn [py_getitem lookup String.eqb Ascii.eqb Bool.eqb bind py_len].
  assert (Hlen : (2 <= List.length dates)%nat).
  { assert (1 < List.length dates)%nat; [|lia].
    apply nth_error_Some. congruence. }
  rewrite py_range_cons by lia. cbn [for_each].
  unfold daily_body at 1. unfold daily_line. cbn [py_index].
  assert (Hidx : seq_index dates 1 = Ok d1).
  { unfold seq_index. cbn [Z.ltb Z.compare].
    replace ((0 <=? 1) && (1 <? Z.of_nat (List.length dates))) with true
      by (symmetry; apply andb_true_iff; lia).
    change (Z.to_nat 1) with 1%nat. now rewrite Hd1. }
  rewrite Hidx. cbn [bind].
  destruct (parses_ok d1 Hparse) as (dt & ->). cbn [bind].
  destruct (seq_index_out_of_range codes 1) as (e & -> & He); [lia|].
  cbn [bind]. eauto.
Qed.

End Anatomy.

Section Layout.
Context {R : Runtime}.

Lemma build_tooltip_lines (sections : list (list string * string))
      (max_len : nat) :
  build_tooltip sections max_len
  = String.concat newline (tooltip_lines sections max_len).
Proof.
  unfold build_tooltip, tooltip_lines. f_equal.
  assert (H : forall acc,
             fold_left
               (fun acc sec => acc ++ render_section (fst sec) (snd sec) max_len)
               sections acc
             = acc ++ flat_map
                        (fun sec => render_section (fst sec) (snd sec) max_len)
                        sections).
  { induction sections as [|sec sections IH]; intros acc; cbn [fold_left flat_map].
    - now rewrite app_nil_r.
    - now rewrite IH, app_assoc. }
  exact (H []).
Qed.

Lemma tooltip_lines_length (sections : list (list string * string))
      (max_len : nat) :
  List.length (tooltip_lines sections max_len)
  = (List.length (flat_map fst sections) + 3 * List.length sections)%nat.
Proof.
  unfold tooltip_lines.
  induction sections as [|[lines heading] sections IH];
    cbn [flat_map List.length]; [reflexivity|].
  rewrite !length_app, IH. unfold render_section. cbn [fst snd].
  rewrite !length_app, length_map. cbn [List.length]. lia.
Qed.

(** X18: ruled at the greatest visible width of their lines and headings,
    as [main] does, the lines of the tooltip are never wider than the rule;
    the tooltip is these lines joined by newlines, three more than its body
    lines for each section. *)
Theorem tooltip_fits_its_rules (sections : list (list string * string)) :
  well_tagged sections ->
  let max_len :=
    max_line_length (flat_map fst sections ++ map snd sections) in
  build_tooltip sections max_len
  = String.concat newline (tooltip_lines sections max_len) /\
  Forall (fun rendered => (visible_width rendered <= max_len)%nat)
         (tooltip_lines sections max_len) /\
  List.length (tooltip_lines sections max_len)
  = (List.length (flat_map fst sections) + 3 * List.length sections)%nat.
Proof.
  intros Hwt max_len. split; [apply build_tooltip_lines|]. split.
  - assert (Hbound : forall line,
               In line (flat_map fst sections ++ map snd sections) ->
               (visible_width line <= max_len)%nat)
      by (intros line; apply max_line_length_bound).
    clearbody max_len. unfold tooltip_lines.
    induction sections as [|[lines heading] sections IH];
      cbn [flat_map]; [constructor|].
    inversion Hwt as [|? ? [Hh Hl] Hwt']; subst. cbn [fst snd] in *.
    apply Forall_app. split.
    + destruct (render_section_stripped lines heading max_len Hh Hl).
      apply Forall_forall. intros rendered Hin.
      assert (Hin' : In (strip_tags rendered)
                        (map strip_tags (render_section lines heading max_len)))
        by now apply in_map.
      rewrite (render_section_stripped lines heading max_len Hh Hl) in Hin'.
      cbn [app] in Hin'. unfold visible_width in *.
      destruct Hin' as [<- | [<- | Hin']].
      * apply Hbound. apply in_or_app. right. now left.
      * destruct (rule_plain max_len) as (_ & _ & ->). lia.
      * apply in_app_or in Hin'. destruct Hin' as [Hin' | [<- | []]];
          [|cbn; lia].
        apply in_map_iff in Hin'. destruct Hin' as (line & <- & Hline).
        apply Hbound. apply in_or_app. left. cbn [flat_map fst].
        apply in_or_app. now left.
    + apply IH; [exact Hwt'|]. intros line Hin. apply Hbound.
      apply in_app_or in Hin. apply in_or_app. cbn [flat_map map fst snd].
      destruct Hin as [Hin | Hin];
        [left; apply in_or_app; now right | right; now right].
  - apply tooltip_lines_length.
Qed.

(** X19: [build_current_section] returns exactly when the weather code is
    hashable and the temperature and the felt temperature are numbers; the
    humidity and the wind speed are printed as they are, whatever they are,
    and the location name plays no part. *)
Theorem current_section_raises_on (w : weather) (name name' : pyval) :
  is_ok (build_current_section w name)
  = is_ok (get_weather_info (w_code w))
    && is_number (w_temp w) && is_number (w_feels_like w) /\
  build_current_section w name = build_current_section w name' /\
  (forall lines,
      build_current_section w name = Ok lines ->
      nth_error lines 2
      = Some (fstr ["💧 Humidity: "; py_str (w_humidity w); "%"]) /\
      nth_error lines 3
      = Some (fstr ["🌬️ Wind Speed: "; py_str (w_windspeed w); " km/h"])).
Proof.
  split; [|split].
  - unfold build_current_section.
    destruct (get_weather_info (w_code w)) as [[icon desc]|]; cbn [bind is_ok];
      [|reflexivity].
    cbn [andb]. unfold is_number at 1.
    destruct (num_value (w_temp w)) as [q|] eqn:Hq.
    + destruct (temp_to_color_number (w_temp w)) as (c & ->);
        [unfold is_number; now rewrite Hq|].
      cbn [bind andb]. unfold is_number.
      destruct (num_value (w_feels_like w)) as [q'|] eqn:Hq'.
      * destruct (temp_to_color_number (w_feels_like w)) as (c' & ->);
          [unfold is_number; now rewrite Hq'|].
        reflexivity.
      * unfold temp_to_color, TEMP_COLORS. cbn [temp_to_color_scan].
        unfold py_le. now rewrite Hq'.
    + unfold temp_to_color, TEMP_COLORS. cbn [temp_to_color_scan].
      unfold py_le. now rewrite Hq.
  - reflexivity.
  - intros lines H. unfold build_current_section in H.
    bind_inv H. destruct a as [icon desc]. bind_inv H. bind_inv H.
    injection H as <-. split; reflexivity.
Qed.

End Layout.

(** X20: the status of the public-IP service is never checked: the
    location found is the same whatever the status and the reason of its
    answer, its body being what counts. *)
Theorem first_status_is_not_checked (w : world) (r1 : response)
        (status : Z) (why : string) :
  http_get w "https://checkip.amazonaws.com" = Ok r1 ->
  get_location_by_ip
    (with_answer w "https://checkip.amazonaws.com"
       (Ok (Response status why (resp_url r1) (text r1) (resp_json r1))))
  = get_location_by_ip w.
Proof.
  intros H1. unfold get_location_by_ip, lookup_location.
  cbn [with_answer http_get]. rewrite String.eqb_refl, H1.
  cbn [bind text].
  assert (Hurl : String.eqb
                   (fstr ["http://ip-api.com/json/"; str_strip (text r1)])
                   "https://checkip.amazonaws.com" = false).
  { reflexivity. }
  now rewrite Hurl.
Qed.

(** *** The further properties on the sample run *)

Lemma strip_tags_composes_witness :
  dangling "<b>rain" = false /\
  strip_tags (String.append "<b>rain" "</b>!")
  = String.append (strip_tags "<b>rain") (strip_tags "</b>!").
Proof.
  split; [reflexivity|].
  exact (proj1 (strip_tags_composes "<b>rain" "</b>!" eq_refl)).
Defined.

Lemma render_section_fits_rule_witness :
  dangling "Today" = false /\
  Forall (fun line => dangling line = false) ["<i>9°C</i>"; "rain"] /\
  visible_width (nth 1 (render_section ["<i>9°C</i>"; "rain"] "Today" 5) "")
  = 5%nat.
Proof.
  assert (H : Forall (fun line => dangling line = false)
                     ["<i>9°C</i>"; "rain"])
    by (repeat constructor).
  split; [reflexivity|]. split; [exact H|].
  exact (proj1 (proj2 (render_section_fits_rule ["<i>9°C</i>"; "rain"]
                         "Today" 5 eq_refl H))).
Defined.



Lemma extract_current_weather_fields_witness :
  exists h w,
    py_getitem sample_data "hourly" = Ok (PDict h) /\
    extract_current_weather (R:=example_runtime) sample_data sample_now
    = Ok w /\
    w_feels_like w = w_temp w.
Proof.
  eexists _, _. split; [reflexivity|]. split; [reflexivity|].
  destruct (extract_current_weather_fields (R:=example_runtime) sample_data
              sample_now _ _ eq_refl eq_refl)
    as (current & times & i & _ & _ & _ & _ & _ & Hfeels & _).
  apply Hfeels. reflexivity.
Defined.

Lemma parse_failure_prints_fallback_witness :
  get_location_by_ip (serving timeless_data)
  = (PFloat (97 # 2), PFloat (5 # 2), PStr "Paris") /\
  extract_current_weather (R:=example_runtime) timeless_data sample_now
  = Raise (Exn IndexError "index out of range") /\
  main (R:=example_runtime) (serving timeless_data)
  = ([JsonLine true parse_fallback], Exited 0).
Proof.
  split; [reflexivity|]. split; [reflexivity|].
  exact (proj1 (parse_failure_prints_fallback (R:=example_runtime)
                  (serving timeless_data) (PFloat (97 # 2)) (PFloat (5 # 2))
                  (PStr "Paris") timeless_data (Date 2024 5 2)
                  (Exn IndexError "index out of range")
                  eq_refl eq_refl eq_refl eq_refl)).
Defined.

Lemma uncaught_after_extraction_witness :
  extract_current_weather (R:=example_runtime) no_daily_data sample_now
  = Ok (Weather (PInt 20) (PInt 3) (PInt 20) (PInt 0) (PInt 0)) /\
  main (R:=example_runtime) (serving no_daily_data)
  = ([], Uncaught (Exn KeyError "'daily'")).
Proof.
  split; [reflexivity|].
  refine (proj1 (proj1 (proj2
            (uncaught_after_extraction (R:=example_runtime)
               (serving no_daily_data) (PFloat (97 # 2)) (PFloat (5 # 2))
               (PStr "Paris") no_daily_data (Date 2024 5 2)
               (Weather (PInt 20) (PInt 3) (PInt 20) (PInt 0) (PInt 0))
               ("☁️", "Overcast") eq_refl eq_refl eq_refl eq_refl eq_refl))
            _ (Exn KeyError "'daily'") eq_refl)).
  discriminate.
Defined.

Lemma extract_needs_a_timestamp_witness :
  lookup "time" [("time", PList [])] = Some (PList []) /\
  exists e,
    extract_current_weather (R:=example_runtime) timeless_data sample_now
    = Raise e /\
    exn_kind_of e = IndexError.
Proof.
  split; [reflexivity|].
  exact (proj2 (proj2
           (extract_needs_a_timestamp (R:=example_runtime) timeless_data
              (PDict [("temperature", PInt 20); ("weathercode", PInt 3)])
              sample_now [("time", PList [])] (PInt 20) (PInt 3)
              "apparent_temperature" eq_refl eq_refl eq_refl eq_refl eq_refl
              (or_introl eq_refl) eq_refl)) eq_refl).
Defined.

Lemma main_done_anatomy_witness :
  snd (main (R:=example_runtime) sample_world) = Done tt /\
  exists current weather,
    build_current_section (R:=example_runtime) weather (PStr "Paris")
    = Ok current /\
    List.length current = 4%nat.
Proof.
  split; [reflexivity|].
  destruct (main_done_anatomy (R:=example_runtime) sample_world eq_refl)
    as (lat & lon & name & data & tomorrow & weather & info & color & hourly
        & daily & current & rain & hours & next & days
        & Hl & _ & _ & _ & _ & _ & _ & _ & Hcur & _ & _ & _ & _ & _ & Hlen & _).
  exists current, weather. injection Hl as <- <- <-. auto.
Defined.

Lemma location_failure_degrades_witness :
  lookup_location unlocated_world
  = Raise (Exn ConnectionError "Network is unreachable") /\
  main (R:=example_runtime) unlocated_world
  = render_forecast (R:=example_runtime) (PStr "Your Location") sample_data
                    sample_now.
Proof.
  split; [reflexivity|].
  exact (proj2 (location_failure_degrades (R:=example_runtime) unlocated_world
                  (Exn ConnectionError "Network is unreachable") eq_refl)
               sample_data eq_refl).
Defined.

Lemma daily_forecast_trusts_alignment_witness :
  exists e,
    build_daily_forecast (R:=example_runtime)
      (daily_payload
         [PStr "2024-05-01T00:00"; PStr "2024-05-02T00:00"]
         [PFloat 21; PFloat 22] [PFloat 9; PFloat 10] [PInt 3])
      DAYS_FORECAST = Raise e /\
    exn_kind_of e = IndexError.
Proof.
  refine (daily_forecast_trusts_alignment (R:=example_runtime)
            [PStr "2024-05-01T00:00"; PStr "2024-05-02T00:00"]
            [PFloat 21; PFloat 22] [PFloat 9; PFloat 10] [PInt 3]
            DAYS_FORECAST (PStr "2024-05-02T00:00") _ eq_refl eq_refl _).
  - unfold DAYS_FORECAST. lia.
  - simpl. lia.
Defined.

Lemma tooltip_fits_its_rules_witness :
  well_tagged [(["<i>9°C</i>"; "rain"], "Today"); (["sun"], "Tomorrow")] /\
  List.length
    (tooltip_lines [(["<i>9°C</i>"; "rain"], "Today"); (["sun"], "Tomorrow")]
                   8)
  = 9%nat.
Proof.
  assert (H : well_tagged
                [(["<i>9°C</i>"; "rain"], "Today"); (["sun"], "Tomorrow")])
    by (repeat constructor).
  split; [exact H|].
  exact (proj2 (proj2 (tooltip_fits_its_rules _ H))).
Defined.

Lemma first_status_is_not_checked_witness :
  get_location_by_ip
    (with_answer sample_world "https://checkip.amazonaws.com"
       (Ok (Response 503 "Service Unavailable"
                     "https://checkip.amazonaws.com" "203.0.113.7"
                     (raise JSONDecodeError "Expecting value"))))
  = get_location_by_ip sample_world.
Proof.
  exact (first_status_is_not_checked sample_world
           (Response 200 "OK" "https://checkip.amazonaws.com" "203.0.113.7"
                     (raise JSONDecodeError "Expecting value"))
           503 "Service Unavailable" eq_refl).
Defined.
